(** * Goal detail and goal definition screens: a shallow embedding

    The development follows [src/screens/GoalDetailScreen.tsx], which holds
    the two React components [GoalDetailScreen] and [GoalDefineScreen].

    - Module [JS] embeds the part of the ECMAScript runtime the two
      components lean on: UTF-16 strings, binary64 numbers, the coercions
      [ToNumber], [ToString], [ToBoolean] with the exceptions they raise,
      the globals [isNaN] and [parseFloat], [Number.prototype.toFixed],
      and the check React makes of the children of an element.
    - Module [Eff] is the state-and-exception monad in which the [async]
      handlers run: component state, an effect trace, the network as a
      parameter, [try]/[catch]/[finally].
    - Modules [Detail] and [Define] are the two components: their state,
      their handlers and what they render.
    - Module [Server] is a model of the remote API, used where a statement
      is about the client and the server together.
    - The goals and runs the statements mention come next, the lemmas and
      theorems last. *)

From Stdlib Require Import ZArith NArith List String Ascii Bool Lia.
From Stdlib Require Import Floats.SpecFloat.
Import ListNotations.

Open Scope Z_scope.

(* ===================================================================== *)
(** * The ECMAScript runtime *)
(* ===================================================================== *)

Module JS.

(** ** Strings

    An ECMAScript string is a finite sequence of 16-bit code units;
    [length], [substring] and the numeric grammars work on code units. *)

Definition code_unit := N.
Definition jsstring := list code_unit.

(** Source literals are written as Rocq strings (UTF-8 bytes) and decoded
    to UTF-16: one unit for a one-, two- or three-byte sequence, a
    surrogate pair for a four-byte one. *)
Fixpoint utf16_of_utf8 (bs : list N) : jsstring :=
  match bs with
  | [] => []
  | b :: r =>
      if (b <? 128)%N then b :: utf16_of_utf8 r
      else if (b <? 224)%N then
        match r with
        | b1 :: r1 =>
            N.lor (N.shiftl (N.land b 31) 6) (N.land b1 63) :: utf16_of_utf8 r1
        | [] => [b]
        end
      else if (b <? 240)%N then
        match r with
        | b1 :: b2 :: r2 =>
            N.lor (N.shiftl (N.land b 15) 12)
                  (N.lor (N.shiftl (N.land b1 63) 6) (N.land b2 63))
            :: utf16_of_utf8 r2
        | _ => [b]
        end
      else
        match r with
        | b1 :: b2 :: b3 :: r3 =>
            let cp := N.lor (N.shiftl (N.land b 7) 18)
                        (N.lor (N.shiftl (N.land b1 63) 12)
                           (N.lor (N.shiftl (N.land b2 63) 6) (N.land b3 63))) in
            let c := (cp - 65536)%N in
            (55296 + N.shiftr c 10)%N :: (56320 + N.land c 1023)%N
            :: utf16_of_utf8 r3
        | _ => [b]
        end
  end.

Definition lit (s : string) : jsstring :=
  utf16_of_utf8 (map N_of_ascii (list_ascii_of_string s)).

Fixpoint str_eqb (a b : jsstring) : bool :=
  match a, b with
  | [], [] => true
  | x :: a', y :: b' => (x =? y)%N && str_eqb a' b'
  | _, _ => false
  end.

(** [String.prototype.substring(start, end)] for integral arguments:
    both are clamped to [0, length] and swapped when out of order. *)
Definition substring (s : jsstring) (start finish : Z) : jsstring :=
  let len := Z.of_nat (List.length s) in
  let a := Z.min (Z.max start 0) len in
  let b := Z.min (Z.max finish 0) len in
  let from := Z.min a b in
  let to := Z.max a b in
  firstn (Z.to_nat (to - from)) (skipn (Z.to_nat from) s).

(** [s] starts with [p]: the rest of [s] after [p]. *)
Fixpoint strip_prefix (p s : jsstring) : option jsstring :=
  match p, s with
  | [], _ => Some s
  | x :: p', y :: s' => if (x =? y)%N then strip_prefix p' s' else None
  | _ :: _, [] => None
  end.

(** [StrWhiteSpaceChar]: WhiteSpace and LineTerminator code points. *)
Definition is_whitespace (c : code_unit) : bool :=
  existsb (N.eqb c)
    [9; 10; 11; 12; 13; 32; 160; 5760;
     8192; 8193; 8194; 8195; 8196; 8197; 8198; 8199; 8200; 8201; 8202;
     8232; 8233; 8239; 8287; 12288; 65279]%N.

Fixpoint trim_start (s : jsstring) : jsstring :=
  match s with
  | c :: r => if is_whitespace c then trim_start r else s
  | [] => []
  end.

Definition trim_end (s : jsstring) : jsstring := rev (trim_start (rev s)).

Definition trim (s : jsstring) : jsstring := trim_end (trim_start s).

(** ** Numbers

    The Number type is IEEE 754 binary64, here the Standard Library's
    [spec_float] at precision 53 and maximal exponent 1024, with a single
    NaN.  [S754_finite s m e] denotes (-1)^s * m * 2^e. *)

Definition number := spec_float.
Definition prec := 53.
Definition emax := 1024.

Definition NaN : number := S754_nan.
Definition Infinity : number := S754_infinity false.

Definition is_nan (x : number) : bool :=
  match x with S754_nan => true | _ => false end.

(** The Number nearest to the rational (-1)^neg * n / d, ties to even
    ([0 <= n], [0 < d]). *)
Definition ratio (neg : bool) (n d : Z) : number :=
  match n with
  | Z0 => S754_zero neg
  | _ =>
      let '(q, e, l) := SFdiv_core_binary prec emax n 0 d 0 in
      binary_round_aux prec emax neg q e l
  end.

Definition of_Z (z : Z) : number := ratio (z <? 0) (Z.abs z) 1.

(** [Number::multiply]. *)
Definition mul (x y : number) : number := SFmul prec emax x y.

Definition number_eqb (x y : number) : bool :=
  match x, y with
  | S754_nan, S754_nan => true
  | S754_zero a, S754_zero b => Bool.eqb a b
  | S754_infinity a, S754_infinity b => Bool.eqb a b
  | S754_finite a m e, S754_finite b m' e' =>
      Bool.eqb a b && (m =? m')%positive && (e =? e')
  | _, _ => false
  end.

(** The exact value of a finite positive Number as a fraction. *)
Definition num_of (m : positive) (e : Z) : Z :=
  if 0 <=? e then Zpos m * 2 ^ e else Zpos m.
Definition den_of (e : Z) : Z :=
  if 0 <=? e then 1 else 2 ^ (- e).

(** ** Decimal digits *)

Definition digit_char (d : Z) : code_unit := Z.to_N (48 + d).

Fixpoint digits_fuel (fuel : nat) (n : Z) (acc : jsstring) : jsstring :=
  match fuel with
  | O => acc
  | S f =>
      let acc' := digit_char (n mod 10) :: acc in
      if n <? 10 then acc' else digits_fuel f (n / 10) acc'
  end.

(** The decimal representation of [n >= 0], most significant digit first;
    ["0"] for zero. *)
Definition decimal_digits (n : Z) : jsstring :=
  digits_fuel (S (Z.to_nat (Z.log2 n))) n [].

(** ** [Number::toString] (radix 10)

    The digits are the shortest decimal [s * 10^(n-k)] (with [k] digits)
    whose nearest Number is [x]; among several, the one closest to [x]. *)

Definition pow10 (z : Z) : Z := 10 ^ Z.max z 0.

Fixpoint up_scale (fuel : nat) (num den j : Z) : Z :=
  match fuel with
  | O => j
  | S f => if den <=? num then j else up_scale f (num * 10) den (j + 1)
  end.

(** The [n] with [10^(n-1) <= num/den < 10^n]. *)
Definition decimal_exponent (num den : Z) : Z :=
  if den <=? num then Z.of_nat (List.length (decimal_digits (num / den)))
  else 1 - up_scale 400 num den 0.

(** The [k]-digit candidate for [x = num/den], if one rounds to [x]. *)
Definition candidate (x : number) (num den n0 k : Z) : option Z :=
  let p := k - n0 in
  let a := num * pow10 p in
  let b := den * pow10 (- p) in
  let lo := a / b in
  let r := a mod b in
  let hi := lo + 1 in
  let ok s := number_eqb (ratio false (s * pow10 (- p)) (pow10 p)) x in
  match ok lo, ok hi with
  | true, true =>
      Some (if 2 * r <? b then lo
            else if b <? 2 * r then hi
            else if Z.even lo then lo else hi)
  | true, false => Some lo
  | false, true => Some hi
  | false, false => None
  end.

Fixpoint shortest (fuel : nat) (x : number) (num den n0 k : Z) : Z * Z :=
  match fuel with
  | O => (num * pow10 (k - n0) / (den * pow10 (n0 - k)), n0)
  | S f =>
      match candidate x num den n0 k with
      | Some s => if s =? 10 ^ k then (10 ^ (k - 1), n0 + 1) else (s, n0)
      | None => shortest f x num den n0 (k + 1)
      end
  end.

Definition zeros (n : Z) : jsstring := repeat 48%N (Z.to_nat n).

Definition format_decimal (ds : jsstring) (n : Z) : jsstring :=
  let k := Z.of_nat (List.length ds) in
  if (k <=? n) && (n <=? 21) then ds ++ zeros (n - k)
  else if (0 <? n) && (n <=? 21) then
    firstn (Z.to_nat n) ds ++ lit "." ++ skipn (Z.to_nat n) ds
  else if (-6 <? n) && (n <=? 0) then lit "0." ++ zeros (- n) ++ ds
  else
    let e := n - 1 in
    let ex := (if e <? 0 then lit "-" else lit "+") ++ decimal_digits (Z.abs e) in
    match ds with
    | [] => []
    | [d] => d :: lit "e" ++ ex
    | d :: rest => d :: lit "." ++ rest ++ lit "e" ++ ex
    end.

Definition Number_toString (x : number) : jsstring :=
  match x with
  | S754_nan => lit "NaN"
  | S754_zero _ => lit "0"
  | S754_infinity s => (if s then lit "-" else []) ++ lit "Infinity"
  | S754_finite s m e =>
      let num := num_of m e in
      let den := den_of e in
      let n0 := decimal_exponent num den in
      let '(sd, n) := shortest 17 (ratio false num den) num den n0 1 in
      (if s then lit "-" else [])
      ++ format_decimal (decimal_digits sd) n
  end.

(** ** [Number.prototype.toFixed(f)]

    For a receiver that is a Number and [0 <= f <= 100] (the source passes
    the literals 1 and 2).  Non-finite values and magnitudes of 10^21 and
    more print as [Number::toString]; otherwise the digits are those of the
    integer [n] nearest to [x * 10^f], the larger one on a tie, with a
    point before the last [f] of them. *)

Definition scaled_round (m : positive) (e : Z) (f : nat) : Z :=
  let num := Zpos m * 10 ^ Z.of_nat f in
  if 0 <=? e then num * 2 ^ e
  else let den := 2 ^ (- e) in (2 * num + den) / (2 * den).

Definition ge_1e21 (m : positive) (e : Z) : bool :=
  10 ^ 21 * den_of e <=? num_of m e.

Definition fixed_digits (n : Z) (f : nat) : jsstring :=
  let m := decimal_digits n in
  match f with
  | O => m
  | S _ =>
      let m' := repeat 48%N (S f - List.length m) ++ m in
      let k := List.length m' in
      firstn (k - f) m' ++ lit "." ++ skipn (k - f) m'
  end.

Definition toFixed (f : nat) (x : number) : jsstring :=
  match x with
  | S754_nan | S754_infinity _ => Number_toString x
  | S754_zero _ => fixed_digits 0 f
  | S754_finite s m e =>
      (if s then lit "-" else [])
      ++ (if ge_1e21 m e then Number_toString (S754_finite false m e)
          else fixed_digits (scaled_round m e f) f)
  end.

(** ** Numeric literals in strings

    [StrDecimalLiteral]: an optional sign, then [Infinity] or decimal
    digits with an optional fraction and an optional exponent part. *)

Definition is_digit (c : code_unit) : bool := ((48 <=? c) && (c <=? 57))%N.

Definition digit_val (c : code_unit) : Z := Z.of_N c - 48.

Fixpoint span_digits (s : jsstring) : jsstring * jsstring :=
  match s with
  | c :: r =>
      if is_digit c then let (d, r') := span_digits r in (c :: d, r')
      else ([], s)
  | [] => ([], [])
  end.

Definition digits_value (ds : jsstring) : Z :=
  fold_left (fun a c => a * 10 + digit_val c) ds 0.

Inductive dec_literal :=
  | LInfinity (neg : bool)
  | LDecimal (neg : bool) (mant : Z) (exp10 : Z).

(** An optional "+" (code unit 43) or "-" (45). *)
Definition parse_sign (s : jsstring) : bool * jsstring :=
  match s with
  | c :: r =>
      if (c =? 43)%N then (false, r)
      else if (c =? 45)%N then (true, r)
      else (false, s)
  | [] => (false, s)
  end.

(** An [ExponentPart] at the head of [s], if a complete one is there. *)
Definition parse_exponent (s : jsstring) : Z * jsstring :=
  match s with
  | c :: r =>
      if ((c =? 101) || (c =? 69))%N then
        let (neg, r1) := parse_sign r in
        let (ds, r2) := span_digits r1 in
        match ds with
        | [] => (0, s)
        | _ => ((if neg then - digits_value ds else digits_value ds), r2)
        end
      else (0, s)
  | [] => (0, s)
  end.

Definition parse_unsigned (neg : bool) (s : jsstring)
  : option (dec_literal * jsstring) :=
  match strip_prefix (lit "Infinity") s with
  | Some r => Some (LInfinity neg, r)
  | None =>
      let (ip, r1) := span_digits s in
      let '(fp, r2) :=
        match r1 with
        | c :: r =>
            if (c =? 46)%N then
              let (fp, r') := span_digits r in
              match ip, fp with
              | [], [] => ([], r1)
              | _, _ => (fp, r')
              end
            else ([], r1)
        | [] => ([], r1)
        end in
      match ip ++ fp with
      | [] => None
      | ds =>
          let (ex, r3) := parse_exponent r2 in
          Some (LDecimal neg (digits_value ds) (ex - Z.of_nat (List.length fp)), r3)
      end
  end.

(** The longest prefix of [s] that is a [StrDecimalLiteral], with the rest
    of [s]; [None] when no prefix is one. *)
Definition parse_prefix (s : jsstring) : option (dec_literal * jsstring) :=
  let (neg, r) := parse_sign s in parse_unsigned neg r.

(** [StringNumericValue] of a decimal literal, rounded to the nearest
    Number. *)
Definition literal_value (l : dec_literal) : number :=
  match l with
  | LInfinity neg => S754_infinity neg
  | LDecimal neg m e =>
      if 0 <=? e then ratio neg (m * 10 ^ e) 1 else ratio neg m (10 ^ (- e))
  end.

(** [NonDecimalIntegerLiteral]: 0b, 0o or 0x and digits of that radix,
    nothing else. *)
Definition radix_digit (radix : Z) (c : code_unit) : option Z :=
  let v :=
    if is_digit c then Z.of_N c - 48
    else if ((97 <=? c) && (c <=? 102))%N then Z.of_N c - 87
    else if ((65 <=? c) && (c <=? 70))%N then Z.of_N c - 55
    else 99 in
  if v <? radix then Some v else None.

Fixpoint radix_value (radix : Z) (s : jsstring) (acc : Z) : option Z :=
  match s with
  | [] => Some acc
  | c :: r =>
      match radix_digit radix c with
      | Some v => radix_value radix r (acc * radix + v)
      | None => None
      end
  end.

Definition parse_nondecimal (s : jsstring) : option Z :=
  match s with
  | z :: p :: (_ :: _) as ds =>
      if negb (z =? 48)%N then None
      else if ((p =? 120) || (p =? 88))%N then radix_value 16 ds 0
      else if ((p =? 111) || (p =? 79))%N then radix_value 8 ds 0
      else if ((p =? 98) || (p =? 66))%N then radix_value 2 ds 0
      else None
  | _ => None
  end.

(** [StringToNumber]: white space is trimmed on both sides; the empty
    string is +0; the whole of the rest must be a numeric literal. *)
Definition StringToNumber (s : jsstring) : number :=
  match trim s with
  | [] => S754_zero false
  | t =>
      match parse_prefix t with
      | Some (l, []) => literal_value l
      | _ =>
          match parse_nondecimal t with
          | Some z => of_Z z
          | None => NaN
          end
      end
  end.

(** [parseFloat] on a string: leading white space is skipped and the
    longest literal prefix is read; NaN when there is none. *)
Definition parseFloat_string (s : jsstring) : number :=
  match parse_prefix (trim_start s) with
  | Some (l, _) => literal_value l
  | None => NaN
  end.

(** ** Values

    The values a parsed JSON payload or a missing property can give. *)

#[local] Set Warnings "-register-all".

Inductive value :=
  | VUndefined
  | VNull
  | VBool (b : bool)
  | VNum (x : number)
  | VStr (s : jsstring)
  | VArr (items : list value)
  | VObj (fields : list (jsstring * value)).

(** ** Exceptions

    [TypeError] is what the engine raises on a bad property access, call
    or conversion; [SyntaxError] and [NetworkError] are raised by the
    platform's [Response.json()] and [fetch]; [Error m] is an [Error]
    with the message [m], as [new Error(m)] makes. *)

Inductive exn :=
  | TypeError
  | SyntaxError (message : jsstring)
  | NetworkError (message : jsstring)
  | Error (message : jsstring).

Inductive result (A : Type) :=
  | Ok (a : A)
  | Throw (e : exn).
Arguments Ok {A} a.
Arguments Throw {A} e.

Definition bind_result {A B} (r : result A) (k : A -> result B) : result B :=
  match r with
  | Ok a => k a
  | Throw e => Throw e
  end.

Notation "x <-- r ;; k" := (bind_result r (fun x => k))
  (at level 100, r at next level, right associativity).

(** ** Objects *)

Fixpoint lookup (k : jsstring) (fs : list (jsstring * value)) : option value :=
  match fs with
  | [] => None
  | (k', v) :: r => if str_eqb k k' then Some v else lookup k r
  end.

(** [o.k = v]: in place when the property exists, else at the end. *)
Fixpoint assign (k : jsstring) (v : value) (fs : list (jsstring * value))
  : list (jsstring * value) :=
  match fs with
  | [] => [(k, v)]
  | (k', v') :: r =>
      if str_eqb k k' then (k', v) :: r else (k', v') :: assign k v r
  end.

(** [delete o.k]. *)
Definition delete (k : jsstring) (fs : list (jsstring * value))
  : list (jsstring * value) :=
  filter (fun kv => negb (str_eqb k (fst kv))) fs.

(** [o.k] for a data property: undefined when the property is missing, a
    TypeError when [o] is undefined or null.  (The keys read by the source
    are field names, never [length] or an index.) *)
Definition get (o : value) (k : jsstring) : result value :=
  match o with
  | VUndefined | VNull => Throw TypeError
  | VObj fs => Ok (match lookup k fs with Some v => v | None => VUndefined end)
  | _ => Ok VUndefined
  end.

(** [o[0]]. *)
Definition get0 (o : value) : result value :=
  match o with
  | VUndefined | VNull => Throw TypeError
  | VArr items => Ok (match items with x :: _ => x | [] => VUndefined end)
  | VStr s => Ok (match s with c :: _ => VStr [c] | [] => VUndefined end)
  | VObj fs => Ok (match lookup (lit "0") fs with Some v => v | None => VUndefined end)
  | _ => Ok VUndefined
  end.

(** ** Conversions *)

(** [Array.prototype.join] with the default separator, [str] being the
    conversion of an element: undefined and null print as nothing. *)
Definition join (str : value -> result jsstring)
  : list value -> result jsstring :=
  fix go (l : list value) : result jsstring :=
    match l with
    | [] => Ok []
    | x :: r =>
        sx <-- match x with
               | VUndefined | VNull => Ok []
               | _ => str x
               end ;;
        match r with
        | [] => Ok sx
        | _ :: _ => sr <-- go r ;; Ok (sx ++ lit "," ++ sr)
        end
    end.

(** [ToString].  An array is the [join] of its elements.  A plain object
    goes through
    [ToPrimitive]: [toString] is tried, then [valueOf]; the inherited
    [toString] gives "[object Object]", but an own property of that name,
    which in parsed JSON is never callable, hides it; the inherited
    [valueOf] gives back the object; so an object with an own [toString]
    key has no primitive value, a TypeError. *)
Fixpoint ToString (v : value) : result jsstring :=
  match v with
  | VUndefined => Ok (lit "undefined")
  | VNull => Ok (lit "null")
  | VBool true => Ok (lit "true")
  | VBool false => Ok (lit "false")
  | VNum x => Ok (Number_toString x)
  | VStr s => Ok s
  | VArr items => join ToString items
  | VObj fs =>
      match lookup (lit "toString") fs with
      | Some _ => Throw TypeError
      | None => Ok (lit "[object Object]")
      end
  end.

(** [ToNumber]; arrays and objects go through [ToPrimitive], which ends
    in their string as above. *)
Definition ToNumber (v : value) : result number :=
  match v with
  | VUndefined => Ok NaN
  | VNull => Ok (S754_zero false)
  | VBool true => Ok (of_Z 1)
  | VBool false => Ok (S754_zero false)
  | VNum x => Ok x
  | VStr s => Ok (StringToNumber s)
  | VArr _ | VObj _ => s <-- ToString v ;; Ok (StringToNumber s)
  end.

(** [ToBoolean]: the falsy values are undefined, null, false, +0, -0, NaN
    and the empty string. *)
Definition ToBoolean (v : value) : bool :=
  match v with
  | VUndefined | VNull => false
  | VBool b => b
  | VNum (S754_zero _) | VNum S754_nan => false
  | VNum _ => true
  | VStr [] => false
  | VStr _ => true
  | VArr _ | VObj _ => true
  end.

(** The globals [isNaN(v)], [parseFloat(v)] and [Number(v)]. *)
Definition isNaN (v : value) : result bool :=
  x <-- ToNumber v ;; Ok (is_nan x).

Definition parseFloat (v : value) : result number :=
  s <-- ToString v ;; Ok (parseFloat_string s).

Definition Number (v : value) : result number := ToNumber v.

(** [a * b]. *)
Definition times (a b : value) : result number :=
  x <-- ToNumber a ;;
  y <-- ToNumber b ;;
  Ok (mul x y).

(** [v.toFixed(f)]: only Numbers have the method; calling the undefined
    property of another value, or an own data property of that name, is a
    TypeError. *)
Definition call_toFixed (v : value) (f : nat) : result jsstring :=
  match v with
  | VNum x => Ok (toFixed f x)
  | _ => Throw TypeError
  end.

(** ** Children of an element

    React accepts strings, numbers, booleans, null, undefined and arrays
    of accepted children as the children of an element; for a plain
    object it throws, when the element is rendered, an [Error] whose
    message (of the development build) names the object's keys. *)
Fixpoint join_keys (fs : list (jsstring * value)) : jsstring :=
  match fs with
  | [] => []
  | [(k, _)] => k
  | (k, _) :: r => k ++ lit ", " ++ join_keys r
  end.

Definition invalid_child (fs : list (jsstring * value)) : exn :=
  Error
    (lit "Objects are not valid as a React child (found: object with keys {"
     ++ join_keys fs
     ++ lit "}). If you meant to render a collection of children, use an array instead.").

(** The children of an array, one after the other. *)
Definition each (check : value -> result unit) : list value -> result unit :=
  fix go (l : list value) : result unit :=
    match l with
    | [] => Ok tt
    | x :: r => _ <-- check x ;; go r
    end.

Fixpoint check_child (v : value) : result unit :=
  match v with
  | VObj fs => Throw (invalid_child fs)
  | VArr items => each check_child items
  | _ => Ok tt
  end.

End JS.

Import JS.

(* ===================================================================== *)
(** * Effects: component state, network, alerts, navigation *)
(* ===================================================================== *)

Module Eff.

Inductive method := GET | POST | DELETE.

(** The five URLs the source builds. *)
Inductive endpoint :=
  | ApiGoal (goalId : jsstring)
  | ApiFinalize (goalId : jsstring)
  | ApiReopen (goalId : jsstring)
  | ApiDefine
  | ApiGoals.

Definition url (e : endpoint) : jsstring :=
  match e with
  | ApiGoal id => lit "https://fortuna-api.onrender.com/api/goals/" ++ id
  | ApiFinalize id => lit "https://fortuna-api.onrender.com/api/goals/finalize/" ++ id
  | ApiReopen id => lit "https://fortuna-api.onrender.com/api/goals/reopen/" ++ id
  | ApiDefine => lit "https://fortuna-api.onrender.com/api/gemini/define"
  | ApiGoals => lit "https://fortuna-api.onrender.com/api/goals"
  end.

(** A request as handed to [fetch].  [req_body] is the value the source
    passes to [JSON.stringify], when there is a body. *)
Record request := mkRequest {
  req_method : method;
  req_target : endpoint;
  req_headers : list (jsstring * jsstring);
  req_body : option value
}.

(** The headers every request of the source carries. *)
Definition headers (token : jsstring) : list (jsstring * jsstring) :=
  [(lit "Content-Type", lit "application/json");
   (lit "Authorization", lit "Bearer " ++ token)].

(** What the source reads of a [Response]: [ok], and the outcome of
    awaiting [text()] or [json()]. *)
Record response := mkResponse {
  ok : bool;
  text : result jsstring;
  json : result value
}.

(** An argument of [console.error]. *)
Inductive logged :=
  | LVal (v : value)
  | LExn (e : exn).

(** The observable effects, in the order they happen. *)
Inductive event :=
  | EFetch (r : request)
  | EConsoleError (args : list logged)
  | EAlert (title message : jsstring)
  | ENavigate (screen : jsstring) (params : value).

Section Monad.

(** [S] is the component's state, [E] the state of whatever answers the
    requests, [respond] its behaviour: the outcome of awaiting [fetch]
    (a response, or the exception a network failure raises). *)
Context {S E : Type}.
Variable respond : request -> E -> result response * E.

(** [pending] holds the requests of calls that were started and not
    awaited by their caller, most recent first. *)
Record world := mkWorld {
  state : S;
  pending : list request;
  trace : list event;
  env : E
}.

Definition M (A : Type) : Type := world -> result A * world.

Definition ret {A} (a : A) : M A := fun w => (Ok a, w).

Definition bind {A B} (m : M A) (k : A -> M B) : M B :=
  fun w =>
    match m w with
    | (Ok a, w') => k a w'
    | (Throw e, w') => (Throw e, w')
    end.

Definition throw {A} (e : exn) : M A := fun w => (Throw e, w).

Definition lift {A} (r : result A) : M A := fun w => (r, w).

(** [try { m } catch (e) { h e }]. *)
Definition try_catch {A} (m : M A) (h : exn -> M A) : M A :=
  fun w =>
    match m w with
    | (Ok a, w') => (Ok a, w')
    | (Throw e, w') => h e w'
    end.

(** [try { m } finally { f }]: [f] runs on every path; an exception of
    [m] goes on after it. *)
Definition finally {A} (m : M A) (f : M unit) : M A :=
  fun w =>
    match m w with
    | (r, w') =>
        match f w' with
        | (Ok _, w'') => (r, w'')
        | (Throw e, w'') => (Throw e, w'')
        end
    end.

Definition modify (f : S -> S) : M unit :=
  fun w => (Ok tt, mkWorld (f (state w)) (pending w) (trace w) (env w)).

Definition read : M S := fun w => (Ok (state w), w).

Definition emit (ev : event) : M unit :=
  fun w => (Ok tt, mkWorld (state w) (pending w) (trace w ++ [ev]) (env w)).

(** The answer to request [r]. *)
Definition answer (r : request) : M response :=
  fun w =>
    let (o, e') := respond r (env w) in
    (o, mkWorld (state w) (pending w) (trace w) e').

(** [await fetch(r)]. *)
Definition fetch (r : request) : M response :=
  bind (emit (EFetch r)) (fun _ => answer r).

(** [fetch(r)] inside a call nobody awaits: the request leaves, the rest
    of the callee waits in [pending]. *)
Definition fetch_start (r : request) : M unit :=
  bind (emit (EFetch r)) (fun _ =>
    fun w => (Ok tt, mkWorld (state w) (r :: pending w) (trace w) (env w))).

(** The most recent call still waiting for its response, if any. *)
Definition take_pending : M (option request) :=
  fun w =>
    match pending w with
    | [] => (Ok None, w)
    | r :: rest => (Ok (Some r), mkWorld (state w) rest (trace w) (env w))
    end.

Definition console_error (args : list logged) : M unit :=
  emit (EConsoleError args).

Definition alert (title message : jsstring) : M unit :=
  emit (EAlert title message).

Definition navigate (screen : jsstring) (params : value) : M unit :=
  emit (ENavigate screen params).

End Monad.

Arguments world : clear implicits.
Arguments M : clear implicits.

Declare Scope eff_scope.
Delimit Scope eff_scope with eff.
Notation "x <- m ;; k" := (bind m (fun x => k))
  (at level 100, m at next level, right associativity) : eff_scope.
Notation "m ;; k" := (bind m (fun _ => k))
  (at level 100, right associativity) : eff_scope.

End Eff.

(* ===================================================================== *)
(** * [GoalDetailScreen] *)
(* ===================================================================== *)

Module Detail.
Import Eff.
#[local] Open Scope eff_scope.

(** [const [goalData, setGoalData] = useState(updatedGoalData || null)],
    [const [loading, setLoading] = useState(!updatedGoalData)]. *)
Record state := mkState {
  goalData : value;
  loading : bool
}.

Definition initial (updatedGoalData : value) : state :=
  {| goalData := if ToBoolean updatedGoalData then updatedGoalData else VNull;
     loading := negb (ToBoolean updatedGoalData) |}.

Section Handlers.

Context {E : Type}.
Variable respond : request -> E -> result response * E.

(** [route.params.goalId] and the token of [TokenContext]. *)
Variables goalId token : jsstring.

#[local] Abbreviation M := (Eff.M state E).

Definition setLoading (b : bool) : M unit :=
  modify (fun s => mkState (goalData s) b).

Definition setGoalData (v : value) : M unit :=
  modify (fun s => mkState v (loading s)).

Definition api (m : method) (e : endpoint) : request :=
  mkRequest m e (headers token) None.

(** The [if (!response.ok) { ... throw new Error(msg) }] block shared by
    the four handlers. *)
Definition check_ok (response : response) (msg : string) : M unit :=
  if negb (ok response) then
    errorData <- lift (text response) ;;
    console_error [LVal (VStr (lit "Error response data:")); LVal (VStr errorData)] ;;
    throw (Error (lit msg))
  else ret tt.

(** The [catch (error)] block shared by the four handlers. *)
Definition on_error (msg : string) (error : exn) : M unit :=
  alert (lit "Erro") (lit msg) ;;
  console_error [LExn error].

(** *** [fetchGoalData] *)

(** The [try] block from the response on. *)
Definition fetchGoalData_rest (response : response) : M unit :=
  check_ok response "Failed to fetch goal data" ;;
  data <- lift (json response) ;;
  first <- lift (get0 data) ;;
  setGoalData first.

Definition fetchGoalData : M unit :=
  finally
    (try_catch
       (setLoading true ;;
        response <- fetch respond (api GET (ApiGoal goalId)) ;;
        fetchGoalData_rest response)
       (on_error "Falha ao buscar os dados da meta."))
    (setLoading false).

(** Every call site of the source writes [fetchGoalData()] without
    [await]: the callee runs up to its [await fetch(...)] and the caller
    goes on; the rest of the callee runs when the response arrives. *)
Definition fetchGoalData_start : M unit :=
  setLoading true ;;
  fetch_start (api GET (ApiGoal goalId)).

Definition fetchGoalData_resume : M unit :=
  p <- take_pending ;;
  match p with
  | None => ret tt
  | Some r =>
      finally
        (try_catch
           (response <- answer respond r ;;
            fetchGoalData_rest response)
           (on_error "Falha ao buscar os dados da meta."))
        (setLoading false)
  end.

(** *** [deleteGoal] *)
Definition deleteGoal : M unit :=
  finally
    (try_catch
       (setLoading true ;;
        response <- fetch respond (api DELETE (ApiGoal goalId)) ;;
        check_ok response "Failed to delete goal" ;;
        navigate (lit "Metas") VUndefined)
       (on_error "Falha ao deletar a meta."))
    (setLoading false).

(** *** [finalizeGoal] *)
Definition finalizeGoal : M unit :=
  finally
    (try_catch
       (setLoading true ;;
        response <- fetch respond (api POST (ApiFinalize goalId)) ;;
        check_ok response "Failed to finalize goal" ;;
        fetchGoalData_start ;;
        alert (lit "Sucesso") (lit "Meta finalizada com sucesso."))
       (on_error "Falha ao finalizar a meta."))
    (setLoading false).

(** *** [reopenGoal] *)
Definition reopenGoal : M unit :=
  finally
    (try_catch
       (setLoading true ;;
        response <- fetch respond (api POST (ApiReopen goalId)) ;;
        check_ok response "Failed to reopen goal" ;;
        fetchGoalData_start ;;
        alert (lit "Sucesso") (lit "Meta reaberta com sucesso."))
       (on_error "Falha ao reabrir a meta."))
    (setLoading false).

(** The [useFocusEffect] callback. *)
Definition on_focus (updatedGoalData : value) : M unit :=
  if negb (ToBoolean updatedGoalData) then fetchGoalData_start else ret tt.

End Handlers.

(** *** Rendering *)

(** [v && !isNaN(parseFloat(v)) ? `R$${parseFloat(v).toFixed(2)}` : "R$0.00"],
    the rows of [patrimony] and [my_patrimony]. *)
Definition currency_text (v : value) : result jsstring :=
  if ToBoolean v then
    x <-- parseFloat v ;;
    nan <-- isNaN (VNum x) ;;
    if negb nan then
      y <-- parseFloat v ;;
      Ok (lit "R$" ++ toFixed 2 y)
    else Ok (lit "R$0.00")
  else Ok (lit "R$0.00").

(** [v && !isNaN(v) ? v.toFixed(2) : "R$0.00"], the two places that show
    [monthly_aport]. *)
Definition aport_text (v : value) : result jsstring :=
  if ToBoolean v then
    nan <-- isNaN v ;;
    if negb nan then call_toFixed v 2 else Ok (lit "R$0.00")
  else Ok (lit "R$0.00").

(** [v && !isNaN(parseFloat(v)) ? v : "N/A"], the rows of [dividends] and
    [rate]; the child of the [Text] element is the field itself. *)
Definition ratio_child (v : value) : result value :=
  if ToBoolean v then
    x <-- parseFloat v ;;
    nan <-- isNaN (VNum x) ;;
    if negb nan then Ok v else Ok (VStr (lit "N/A"))
  else Ok (VStr (lit "N/A")).

Definition status_text (v : value) : jsstring :=
  if ToBoolean v then lit "Concluída" else lit "Em Andamento".

(** [Number(goalData.time_desired).toFixed(1)]. *)
Definition timeRemaining (v : value) : result jsstring :=
  x <-- Number v ;;
  Ok (toFixed 1 x).

Record rows := mkRows {
  row_name : value;
  row_patrimony : jsstring;
  row_my_patrimony : jsstring;
  row_monthly_aport : jsstring;
  row_dividends : value;
  row_rate : value;
  row_status : jsstring;
  highlight_aport : jsstring;
  highlight_time : jsstring
}.

Inductive view :=
  | Loading (title : jsstring)
  | ErrorText (text : jsstring)
  | Details (r : rows).

Definition field (g : value) (k : string) : result value := get g (lit k).

(** What rendering the component gives for a given state: the expressions
    of the function body are evaluated in the order of the source, then
    React goes through the children that are fields as they came ([name],
    and [dividends] and [rate] when they pass their guard). *)
Definition render (s : state) : result view :=
  if loading s then Ok (Loading (lit "Carregando detalhes da meta..."))
  else if negb (ToBoolean (goalData s)) then
    Ok (ErrorText (lit "Erro ao carregar os dados do plano de ação."))
  else
    let g := goalData s in
    time_desired <-- field g "time_desired" ;;
    time <-- timeRemaining time_desired ;;
    name <-- field g "name" ;;
    patrimony <-- field g "patrimony" ;;
    patrimony' <-- currency_text patrimony ;;
    my_patrimony <-- field g "my_patrimony" ;;
    my_patrimony' <-- currency_text my_patrimony ;;
    monthly_aport <-- field g "monthly_aport" ;;
    aport <-- aport_text monthly_aport ;;
    dividends <-- field g "dividends" ;;
    dividends' <-- ratio_child dividends ;;
    rate <-- field g "rate" ;;
    rate' <-- ratio_child rate ;;
    status <-- field g "status" ;;
    aport' <-- aport_text monthly_aport ;;
    _ <-- check_child name ;;
    _ <-- check_child dividends' ;;
    _ <-- check_child rate' ;;
    Ok (Details
          {| row_name := name;
             row_patrimony := patrimony';
             row_my_patrimony := my_patrimony';
             row_monthly_aport := aport;
             row_dividends := dividends';
             row_rate := rate';
             row_status := status_text status;
             highlight_aport := lit "Aporte Necessário: " ++ aport';
             highlight_time := lit "Tempo Estimado: " ++ time ++ lit " anos" |}).

(** [renderListItems]: one [Text] element per entry of [items], in order,
    with the index as its [key] and the literal "* " and the entry as its
    children. *)
Record list_item := mkItem {
  item_key : nat;
  item_text : jsstring
}.

Fixpoint renderListItems_from (index : nat) (items : list jsstring)
  : list list_item :=
  match items with
  | [] => []
  | item :: rest =>
      mkItem index (lit "* " ++ item) :: renderListItems_from (S index) rest
  end.

Definition renderListItems (items : list jsstring) : list list_item :=
  renderListItems_from 0 items.

End Detail.

(* ===================================================================== *)
(** * [GoalDefineScreen] *)
(* ===================================================================== *)

Module Define.
Import Eff.
#[local] Open Scope eff_scope.

(** [goalData] starts as [route.params], [loading] as [true],
    [showFullSummary] as [false]. *)
Record state := mkState {
  goalData : value;
  loading : bool;
  showFullSummary : bool
}.

Definition initial (initialGoalData : value) : state :=
  {| goalData := initialGoalData; loading := true; showFullSummary := false |}.

(** [{ ...v }]: the own enumerable properties of [v]; the indices of an
    array or a string, nothing for another primitive. *)
Fixpoint indexed (i : nat) (items : list value) : list (jsstring * value) :=
  match items with
  | [] => []
  | x :: r => (decimal_digits (Z.of_nat i), x) :: indexed (S i) r
  end.

Definition spread (v : value) : list (jsstring * value) :=
  match v with
  | VObj fs => fs
  | VArr items => indexed 0 items
  | VStr s => indexed 0 (map (fun c => VStr [c]) s)
  | _ => []
  end.

(** [a || b]. *)
Definition or_else (a b : value) : value := if ToBoolean a then a else b.

(** [a || b] on strings: the empty string is the falsy one. *)
Definition or_else_text (a b : jsstring) : jsstring :=
  match a with
  | [] => b
  | _ :: _ => a
  end.

Section Handlers.

Context {E : Type}.
Variable respond : request -> E -> result response * E.
Variable token : jsstring.

(** [error.message] for an exception raised by the engine itself; its
    wording is implementation-defined. *)
Variable engine_message : jsstring.

(** [route.params]. *)
Variable initialGoalData : value.

#[local] Abbreviation M := (Eff.M state E).

Definition setGoalData (v : value) : M unit :=
  modify (fun s => mkState v (loading s) (showFullSummary s)).

Definition setLoading (b : bool) : M unit :=
  modify (fun s => mkState (goalData s) b (showFullSummary s)).

Definition setShowFullSummary (b : bool) : M unit :=
  modify (fun s => mkState (goalData s) (loading s) b).

Definition message_of (e : exn) : jsstring :=
  match e with
  | TypeError => engine_message
  | SyntaxError m | NetworkError m | Error m => m
  end.

(** The [fetchGoalData] of the [useEffect]. *)
Definition fetchGoalData : M unit :=
  finally
    (try_catch
       (response <- fetch respond
          (mkRequest POST ApiDefine (headers token) (Some initialGoalData)) ;;
        (if negb (ok response)
         then throw (Error (lit "Failed to fetch goal data"))
         else ret tt) ;;
        data <- lift (json response) ;;
        setGoalData data)
       (fun error =>
          alert (lit "Erro") (lit "Falha ao definir a meta.") ;;
          console_error [LExn error]))
    (setLoading false).

(** [const dataToSend = { ...goalData };
     if (goalData.monthly_aport) { delete dataToSend.monthly_aport; }] *)
Definition dataToSend (goalData : value) : result (list (jsstring * value)) :=
  let copy := spread goalData in
  match get goalData (lit "monthly_aport") with
  | Throw e => Throw e
  | Ok monthly_aport =>
      Ok (if ToBoolean monthly_aport
          then delete (lit "monthly_aport") copy
          else copy)
  end.

Definition handleCreateGoal : M unit :=
  try_catch
    (s <- read ;;
     payload <- lift (dataToSend (goalData s)) ;;
     response <- fetch respond
       (mkRequest POST ApiGoals (headers token) (Some (VObj payload))) ;;
     (if negb (ok response) then
        errorData <- lift (json response) ;;
        console_error [LVal (VStr (lit "Error data:")); LVal errorData] ;;
        message <- lift (get errorData (lit "message")) ;;
        text <- lift (ToString (or_else message (VStr (lit "Failed to create goal")))) ;;
        throw (Error text)
      else ret tt) ;;
     createdGoal <- lift (json response) ;;
     goal_id <- lift (get createdGoal (lit "goal_id")) ;;
     goalId <- lift (get goal_id (lit "id")) ;;
     navigate (lit "GoalCreatePlan") (VObj [(lit "goalId", goalId)]))
    (fun error =>
       alert (lit "Erro")
         (or_else_text (message_of error) (lit "Falha ao criar a meta.")) ;;
       console_error [LVal (VStr (lit "Fetch error:")); LExn error]).

Definition handleRewriteGoal : M unit :=
  s <- read ;;
  navigate (lit "GoalCreate") (goalData s).

End Handlers.

(** [getLimitedSummary], for a summary that is a string. *)
Definition getLimitedSummary (showFullSummary : bool) (summary : jsstring)
  : jsstring :=
  let maxLength := 250 in
  if (maxLength <? Z.of_nat (List.length summary)) && negb showFullSummary
  then substring summary 0 maxLength ++ lit "..."
  else summary.

(** *** Rendering

    The [console.log] calls of the rendering closures are left out. *)

(** The rows of [patrimony], [my_patrimony] and [time_desired]:
    [parseFloat], then "N/A" or [toFixed(2)]. *)
Definition parsed_text (v : value) : result jsstring :=
  x <-- parseFloat v ;;
  nan <-- isNaN (VNum x) ;;
  if nan then Ok (lit "N/A") else Ok (toFixed 2 x).

(** [isNaN(v) ? "N/A" : v.toFixed(2)], the row of [dividends]. *)
Definition dividends_text (v : value) : result jsstring :=
  nan <-- isNaN v ;;
  if nan then Ok (lit "N/A") else call_toFixed v 2.

(** [{isNaN(v) ? "N/A" : (v * 100).toFixed(2)}%], the row of [rate]: the
    expression and the literal percent sign are the two children of the
    [Text] element. *)
Definition rate_expr (v : value) : result jsstring :=
  nan <-- isNaN v ;;
  if nan then Ok (lit "N/A")
  else
    x <-- times v (VNum (of_Z 100)) ;;
    Ok (toFixed 2 x).

Definition rate_text (v : value) : result jsstring :=
  e <-- rate_expr v ;;
  Ok (e ++ lit "%").

Record rows := mkRows {
  row_name : value;
  row_type : jsstring;
  row_patrimony : jsstring;
  row_dividends : jsstring;
  row_my_patrimony : jsstring;
  row_rate : jsstring;
  row_time_desired : jsstring
}.

Inductive view :=
  | Loading (text : jsstring)
  | Summary (r : rows).

Definition field (g : value) (k : string) : result value := get g (lit k).

(** What rendering the component gives: the rows in the order of the
    source, then React's pass over the one child that is a field as it
    came, [name]. *)
Definition render (s : state) : result view :=
  if loading s then Ok (Loading (lit "Definindo meta..."))
  else
    let g := goalData s in
    name <-- field g "name" ;;
    type_goal <-- field g "type_goal" ;;
    patrimony <-- field g "patrimony" ;;
    patrimony' <-- parsed_text patrimony ;;
    dividends <-- field g "dividends" ;;
    dividends' <-- dividends_text dividends ;;
    my_patrimony <-- field g "my_patrimony" ;;
    my_patrimony' <-- parsed_text my_patrimony ;;
    rate <-- field g "rate" ;;
    rate' <-- rate_text rate ;;
    time_desired <-- field g "time_desired" ;;
    time_desired' <-- parsed_text time_desired ;;
    _ <-- check_child name ;;
    Ok (Summary
          {| row_name := name;
             row_type := if ToBoolean type_goal then lit "Dividendo" else lit "Patrimônio";
             row_patrimony := patrimony';
             row_dividends := dividends';
             row_my_patrimony := my_patrimony';
             row_rate := rate';
             row_time_desired := time_desired' |}).

End Define.

(* ===================================================================== *)
(** * The remote API *)
(* ===================================================================== *)

Module Server.
Import Eff.

(** Modelled from the spec: the goal endpoints of the remote API, which is
    not part of this repository.  The store maps a goal identifier to the
    goal; a read answers with an array whose first element is the goal;
    finalize and reopen set [status] to true and to false; delete removes
    the goal; an unknown identifier gets a non-success answer.  The text
    of a success body is not modelled: the handlers read [text()] only of
    a non-success answer. *)
Definition store := list (jsstring * value).

Definition set_status (b : bool) (g : value) : value :=
  match g with
  | VObj fs => VObj (assign (lit "status") (VBool b) fs)
  | _ => g
  end.

Definition success (body : result value) : response :=
  {| ok := true; text := Ok []; json := body |}.

Definition not_found : response :=
  {| ok := false;
     text := Ok (lit "Goal not found");
     json := Throw (SyntaxError (lit "Unexpected token")) |}.

Definition no_body : result value :=
  Throw (SyntaxError (lit "Unexpected end of input")).

Definition serve (r : request) (db : store) : result response * store :=
  match req_method r, req_target r with
  | GET, ApiGoal id =>
      match lookup id db with
      | Some g => (Ok (success (Ok (VArr [g]))), db)
      | None => (Ok not_found, db)
      end
  | DELETE, ApiGoal id =>
      match lookup id db with
      | Some _ => (Ok (success no_body), delete id db)
      | None => (Ok not_found, db)
      end
  | POST, ApiFinalize id =>
      match lookup id db with
      | Some g => (Ok (success no_body), assign id (set_status true g) db)
      | None => (Ok not_found, db)
      end
  | POST, ApiReopen id =>
      match lookup id db with
      | Some g => (Ok (success no_body), assign id (set_status false g) db)
      | None => (Ok not_found, db)
      end
  | _, _ => (Ok not_found, db)
  end.

End Server.

(* ===================================================================== *)
(** * Goals, servers and runs used in the statements *)
(* ===================================================================== *)

Import Eff.
Arguments lit : simpl never.

(** The Number a JSON numeric literal denotes. *)
Definition num (s : string) : value := VNum (StringToNumber (lit s)).

(** [o.k] on an object with the fields [fs]. *)
Definition prop (fs : list (jsstring * value)) (k : string) : value :=
  match lookup (lit k) fs with
  | Some v => v
  | None => VUndefined
  end.

(** A goal as the [Goal] interface declares it: amounts, dividends and
    rate as strings, [monthly_aport] and [time_desired] as numbers. *)
Definition casa : list (jsstring * value) :=
  [(lit "id", VStr (lit "g1"));
   (lit "name", VStr (lit "Casa"));
   (lit "patrimony", VStr (lit "1234.5"));
   (lit "my_patrimony", VStr (lit "abc"));
   (lit "monthly_aport", num "1234.5");
   (lit "dividends", VStr (lit "5"));
   (lit "rate", VStr (lit "0.08"));
   (lit "status", VBool false);
   (lit "time_desired", num "7")].

(** The goal [casa] with [dividends] as a number. *)
Definition casa_numeric : list (jsstring * value) :=
  assign (lit "dividends") (num "5") casa.

(** A draft whose [monthly_aport] is the number 0. *)
Definition zero_draft : list (jsstring * value) :=
  [(lit "name", VStr (lit "Casa"));
   (lit "patrimony", VStr (lit "1234.5"));
   (lit "monthly_aport", num "0")].

(** A server holding the goal [casa] under the identifier "g1". *)
Definition casa_store : Server.store := [(lit "g1", VObj casa)].

(** A session token and an engine wording to run the handlers with. *)
Definition some_token : jsstring := lit "token".
Definition some_wording : jsstring := lit "undefined is not an object".

(** A freshly mounted screen in front of the server [db]: nothing
    pending, no effect yet. *)
Definition define_world (g : value) (db : Server.store)
  : world Define.state Server.store :=
  mkWorld (Define.mkState g false false) [] [] db.

Definition detail_world (s : Detail.state) (db : Server.store)
  : world Detail.state Server.store :=
  mkWorld s [] [] db.

(** A server that answers every read with an empty array. *)
Definition empty_list_server (r : request) (u : unit) : result response * unit :=
  (Ok (Server.success (Ok (VArr []))), u).

(** The outcome of a request counts as a failure when [fetch] raised or
    the status is not a success one. *)
Definition failed (o : result response) : bool :=
  match o with
  | Throw _ => true
  | Ok r => negb (ok r)
  end.

(** One step of the round trip: the handler, then the arrival of the
    response to the re-read it started. *)
Definition finalize_step (goalId token : jsstring)
  : M Detail.state Server.store unit :=
  bind (Detail.finalizeGoal Server.serve goalId token) (fun _ =>
  Detail.fetchGoalData_resume Server.serve).

Definition reopen_step (goalId token : jsstring)
  : M Detail.state Server.store unit :=
  bind (Detail.reopenGoal Server.serve goalId token) (fun _ =>
  Detail.fetchGoalData_resume Server.serve).

(** Finalize, the arrival of the response to its re-read, reopen, the
    arrival of the response to its re-read. *)
Definition finalize_then_reopen (goalId token : jsstring)
  : M Detail.state Server.store unit :=
  bind (Detail.finalizeGoal Server.serve goalId token) (fun _ =>
  bind (Detail.fetchGoalData_resume Server.serve) (fun _ =>
  bind (Detail.reopenGoal Server.serve goalId token) (fun _ =>
  Detail.fetchGoalData_resume Server.serve))).

(** What a [StrUnsignedDecimalLiteral] can start with: "Infinity", a
    digit, or a point and a digit. *)
Definition numeric_head (r : jsstring) : bool :=
  match strip_prefix (lit "Infinity") r with
  | Some _ => true
  | None =>
      match r with
      | c :: r' =>
          is_digit c
          || ((c =? 46)%N && match r' with d :: _ => is_digit d | [] => false end)
      | [] => false
      end
  end.

(** The values both screens take for "not a number": a missing field,
    NaN, and a string that is not blank and has no numeric literal in
    front (after white space). *)
Definition non_numeric (v : value) : bool :=
  match v with
  | VUndefined => true
  | VNum x => is_nan x
  | VStr s =>
      match trim s, parse_prefix (trim_start s) with
      | _ :: _, None => true
      | _, _ => false
      end
  | _ => false
  end.

(** A network that is down: every [fetch] raises. *)
Definition offline (r : request) (u : unit) : result response * unit :=
  (Throw (NetworkError (lit "Network request failed")), u).


(** A server whose success bodies are not JSON. *)
Definition garbled (r : request) (u : unit) : result response * unit :=
  (Ok (Server.success Server.no_body), u).

(** A server that creates every goal under the identifier "g2". *)
Definition creating (r : request) (u : unit) : result response * unit :=
  (Ok (Server.success
         (Ok (VObj [(lit "goal_id", VObj [(lit "id", VStr (lit "g2"))])]))), u).

(** A server that rejects every request with a JSON body carrying
    [message]. *)
Definition rejecting (message : value) (r : request) (u : unit)
  : result response * unit :=
  (Ok {| ok := false;
         text := Ok [];
         json := Ok (VObj [(lit "message", message)]) |}, u).

(** The numbers [toFixed] prints in fixed notation: NaN apart, the finite
    ones below 10^21 in magnitude. *)
Definition fixed_range (x : number) : bool :=
  match x with
  | S754_zero _ => true
  | S754_finite _ m e => negb (ge_1e21 m e)
  | S754_nan | S754_infinity _ => false
  end.

(** The text [toFixed(2)] gives in that range: an optional minus, digits,
    a point, two digits. *)
Definition two_decimals (t : jsstring) : Prop :=
  exists sign int frac,
    t = sign ++ int ++ lit "." ++ frac
    /\ (sign = [] \/ sign = lit "-")
    /\ (1 <= List.length int)%nat
    /\ List.length frac = 2%nat
    /\ Forall (fun c => is_digit c = true) (int ++ frac).

(** [g.k] when [g] is neither undefined nor null. *)
Definition member (g : value) (k : string) : value :=
  match get g (lit k) with
  | Ok v => v
  | Throw _ => VUndefined
  end.

Definition is_number (v : value) : bool :=
  match v with
  | VNum _ => true
  | _ => false
  end.

(** The values that are neither an array nor an object: undefined, null,
    booleans, numbers and strings. *)
Definition scalar (v : value) : bool :=
  match v with
  | VArr _ | VObj _ => false
  | _ => true
  end.

(** Every field of [g] named in [ks] is such a value, or is missing. *)
Definition scalar_fields (g : value) (ks : list string) : bool :=
  forallb (fun k => scalar (member g k)) ks.

(** The fields the detail view converts, [monthly_aport] apart, and
    with [name] the fields it reads, [monthly_aport] apart. *)
Definition detail_parsed : list string :=
  ["time_desired"; "patrimony"; "my_patrimony"; "dividends"; "rate"]%string.

Definition detail_others : list string := "name"%string :: detail_parsed.

(** The same for the definition-review view and [dividends]. *)
Definition define_parsed : list string :=
  ["patrimony"; "my_patrimony"; "rate"; "time_desired"]%string.

Definition define_others : list string := "name"%string :: define_parsed.

(** The fields of the object that [JSON.parse] makes of [{"toString": 1}]. *)
Definition own_toString : list (jsstring * value) :=
  [(lit "toString", num "1")].


(** The values on which [isNaN(v) ? ... : v.toFixed(2)] throws: the
    conversion to a number throws, or it gives a number and [v] is not a
    Number, so that there is no [toFixed] to call. *)
Definition dividends_crashes (v : value) : bool :=
  match isNaN v with
  | Throw _ => true
  | Ok nan => negb nan && negb (is_number v)
  end.

(** The same for [v && !isNaN(v) ? v.toFixed(2) : ...], where [v] is
    truthy as well. *)
Definition aport_crashes (v : value) : bool :=
  ToBoolean v && dividends_crashes v.

(** The goal [casa_numeric] with an empty [rate]. *)
Definition blank_rate : list (jsstring * value) :=
  assign (lit "rate") (VStr []) casa_numeric.

Definition is_nullish (v : value) : bool :=
  match v with
  | VUndefined | VNull => true
  | _ => false
  end.

(** The outcomes on which the definition request counts as failed: an
    exception of [fetch], a non-success status, or a success body that is
    not JSON. *)
Definition define_failed (o : result response) : bool :=
  match o with
  | Throw _ => true
  | Ok r =>
      negb (ok r)
      || match json r with Throw _ => true | Ok _ => false end
  end.

(** The detail screen holding [casa], and the definition screen holding
    it as a draft, in front of a server without state. *)
Definition casa_detail : world Detail.state unit :=
  mkWorld (Detail.initial (VObj casa)) [] [] tt.

Definition casa_draft : world Define.state unit :=
  mkWorld (Define.mkState (VObj casa) false false) [] [] tt.

(** [casa] without [monthly_aport], as Create sends it. *)
Definition casa_payload : list (jsstring * value) :=
  delete (lit "monthly_aport") casa.

(** An alert with the title "Erro". *)
Definition is_error_alert (ev : event) : bool :=
  match ev with
  | EAlert title _ => str_eqb title (lit "Erro")
  | _ => false
  end.

Definition is_navigation (ev : event) : bool :=
  match ev with
  | ENavigate _ _ => true
  | _ => false
  end.

Definition is_fetch (ev : event) : bool :=
  match ev with
  | EFetch _ => true
  | _ => false
  end.

(** Symbolic execution of a handler: the monad's operations are unfolded,
    the fields of the world are projected. *)
Ltac exec :=
  cbv beta iota zeta delta
    [bind ret throw lift try_catch finally modify read emit answer fetch
     fetch_start take_pending console_error alert navigate negb];
  cbn [state pending trace env].

(** Closes [exists evs w', run = (r, w') /\ trace w' = trace w ++ evs /\ _],
    leaving the last conjunct. *)
Ltac traced :=
  eexists; eexists; split; [reflexivity|];
  split; [cbn [trace]; rewrite <- ?app_assoc; reflexivity|].

(** The handlers of the detail screen, unfolded to the monad. *)
Ltac unfold_handlers :=
  unfold Detail.deleteGoal, Detail.finalizeGoal, Detail.reopenGoal,
    Detail.fetchGoalData, Detail.fetchGoalData_resume, Detail.fetchGoalData_start,
    Detail.fetchGoalData_rest, Detail.on_focus,
    Detail.check_ok, Detail.on_error, Detail.setLoading, Detail.setGoalData.

(** Closes [exists w', run = (r, w') /\ _], leaving the facts about [w']. *)
Ltac done_run :=
  eexists; split; [reflexivity|];
  cbn [state pending trace env Detail.loading Detail.goalData];
  rewrite <- ?app_assoc; cbn [app].

(* ===================================================================== *)
(** * Properties *)
(* ===================================================================== *)

(** ** Lists of code units *)

Lemma str_eqb_refl (s : jsstring) : str_eqb s s = true.
Proof.
  induction s as [|c s IH]; simpl; [reflexivity|].
  now rewrite N.eqb_refl, IH.
Qed.

Lemma str_eqb_eq (a b : jsstring) : str_eqb a b = true <-> a = b.
Proof.
  split.
  - revert b. induction a as [|x a IH]; intros [|y b]; simpl; try discriminate.
    + reflexivity.
    + intros H. apply andb_true_iff in H as [Hx Hab].
      apply N.eqb_eq in Hx. subst. f_equal. now apply IH.
  - intros ->. apply str_eqb_refl.
Qed.

Lemma str_eqb_neq (a b : jsstring) : str_eqb a b = false <-> a <> b.
Proof.
  split.
  - intros H E. apply str_eqb_eq in E. congruence.
  - intros H. destruct (str_eqb a b) eqn:E; [|reflexivity].
    apply str_eqb_eq in E. contradiction.
Qed.

(** ** Summary truncation *)

Lemma substring_head (s : jsstring) (n : nat) :
  (n <= List.length s)%nat -> substring s 0 (Z.of_nat n) = firstn n s.
Proof.
  intros H. unfold substring.
  rewrite (Z.max_l 0 0) by lia.
  rewrite (Z.min_l 0) by lia.
  rewrite (Z.max_l (Z.of_nat n) 0) by lia.
  rewrite (Z.min_l (Z.of_nat n)) by lia.
  rewrite (Z.min_l 0) by lia.
  rewrite (Z.max_r 0) by lia.
  rewrite Z.sub_0_r, Nat2Z.id. reflexivity.
Qed.

Lemma getLimitedSummary_short (b : bool) (summary : jsstring) :
  (List.length summary <= 250)%nat -> Define.getLimitedSummary b summary = summary.
Proof.
  intros H. unfold Define.getLimitedSummary.
  destruct (250 <? Z.of_nat (List.length summary)) eqn:E; [|reflexivity].
  apply Z.ltb_lt in E. lia.
Qed.

Lemma getLimitedSummary_full (summary : jsstring) :
  Define.getLimitedSummary true summary = summary.
Proof.
  unfold Define.getLimitedSummary. now rewrite andb_false_r.
Qed.

Lemma getLimitedSummary_long (summary : jsstring) :
  (250 < List.length summary)%nat ->
  Define.getLimitedSummary false summary = firstn 250 summary ++ lit "...".
Proof.
  intros H. unfold Define.getLimitedSummary.
  destruct (250 <? Z.of_nat (List.length summary)) eqn:E.
  - simpl. change 250 with (Z.of_nat 250).
    rewrite substring_head by lia. reflexivity.
  - apply Z.ltb_ge in E. lia.
Qed.

(** C5. A summary of 300 code units is shown as its first 250 code units
    followed by "...", 253 code units in all, while [showFullSummary] is
    false, and unchanged once it is true; a summary of at most 250 code
    units is shown unchanged whatever the toggle. *)
Theorem getLimitedSummary_budget
  (long short : jsstring) (showFullSummary : bool) :
  List.length long = 300%nat ->
  (List.length short <= 250)%nat ->
  Define.getLimitedSummary false long = firstn 250 long ++ lit "..."
  /\ List.length (Define.getLimitedSummary false long) = 253%nat
  /\ Define.getLimitedSummary true long = long
  /\ Define.getLimitedSummary showFullSummary short = short.
Proof.
  intros Hlong Hshort.
  assert (Hcut : Define.getLimitedSummary false long = firstn 250 long ++ lit "...")
    by (apply getLimitedSummary_long; lia).
  repeat split.
  - exact Hcut.
  - rewrite Hcut, length_app, length_firstn, Hlong. reflexivity.
  - apply getLimitedSummary_full.
  - now apply getLimitedSummary_short.
Qed.

Lemma getLimitedSummary_budget_witness :
  List.length (repeat 97%N 300) = 300%nat
  /\ (List.length (lit "Plano curto") <= 250)%nat
  /\ List.length (Define.getLimitedSummary false (repeat 97%N 300)) = 253%nat
  /\ Define.getLimitedSummary true (lit "Plano curto") = lit "Plano curto".
Proof.
  assert (H1 : List.length (repeat 97%N 300) = 300%nat) by reflexivity.
  assert (H2 : (List.length (lit "Plano curto") <= 250)%nat) by (vm_compute; lia).
  destruct (getLimitedSummary_budget (repeat 97%N 300) (lit "Plano curto") true H1 H2)
    as (_ & Hlen & _ & Hshort).
  exact (conj H1 (conj H2 (conj Hlen Hshort))).
Defined.

(** ** Conversions *)

(** Induction on a value, through the elements of its arrays. *)
Lemma value_ind_elements (P : value -> Prop) :
  P VUndefined -> P VNull -> (forall b, P (VBool b)) ->
  (forall x, P (VNum x)) -> (forall s, P (VStr s)) ->
  (forall items, Forall P items -> P (VArr items)) ->
  (forall fs, P (VObj fs)) ->
  forall v, P v.
Proof.
  intros Hu Hn Hb Hx Hs Ha Ho.
  fix IH 1. intros [| | b | x | s | items | fs];
    [exact Hu | exact Hn | apply Hb | apply Hx | apply Hs | | apply Ho].
  apply Ha. revert items. fix IHl 1.
  intros [|x r]; constructor; [apply IH | apply IHl].
Qed.

(** The conversions throw nothing but a TypeError. *)
Lemma ToString_throws (v : value) (e : exn) :
  ToString v = Throw e -> e = TypeError.
Proof.
  revert e. induction v as [| | b | x | s | items IH | fs] using value_ind_elements;
    intros e; cbn [ToString].
  - discriminate.
  - discriminate.
  - destruct b; discriminate.
  - discriminate.
  - discriminate.
  - revert e. induction IH as [|x r Hx' _ IHr]; intros e; [discriminate|].
    rename Hx' into IH.
    cbn [join].
    destruct (match x with VUndefined | VNull => Ok [] | _ => ToString x end)
      as [sx|ex] eqn:Hx; cbn [bind_result].
    + destruct r as [|y r']; [discriminate|].
      destruct (join ToString (y :: r')) as [sr|er] eqn:Hr; cbn [bind_result].
      * discriminate.
      * intros H. injection H as <-. apply IHr. reflexivity.
    + intros H. injection H as <-.
      destruct x; try discriminate; apply (IH _ Hx).
  - destruct (lookup _ fs); [|discriminate]. intros H. now injection H as <-.
Qed.

Lemma ToNumber_throws (v : value) (e : exn) :
  ToNumber v = Throw e -> e = TypeError.
Proof.
  destruct v as [| | b | x | s | items | fs]; cbn [ToNumber];
    try discriminate; try (destruct b; discriminate).
  - destruct (ToString (VArr items)) eqn:H; cbn [bind_result]; [discriminate|].
    intros H'. injection H' as <-. exact (ToString_throws _ _ H).
  - destruct (ToString (VObj fs)) eqn:H; cbn [bind_result]; [discriminate|].
    intros H'. injection H' as <-. exact (ToString_throws _ _ H).
Qed.

Lemma isNaN_throws (v : value) (e : exn) : isNaN v = Throw e -> e = TypeError.
Proof.
  unfold isNaN. destruct (ToNumber v) eqn:H; cbn [bind_result]; [discriminate|].
  intros H'. injection H' as <-. exact (ToNumber_throws _ _ H).
Qed.

(** Undefined, null, booleans, numbers and strings convert. *)
Lemma scalar_ToString (v : value) :
  scalar v = true -> exists s, ToString v = Ok s.
Proof.
  destruct v as [| | b | x | s | items | fs]; cbn [scalar ToString];
    try discriminate; try destruct b; eauto.
Qed.

Lemma scalar_ToNumber (v : value) :
  scalar v = true -> exists x, ToNumber v = Ok x.
Proof.
  destruct v as [| | b | x | s | items | fs]; cbn [scalar ToNumber];
    try discriminate; try destruct b; eauto.
Qed.

Lemma scalar_check_child (v : value) : scalar v = true -> check_child v = Ok tt.
Proof. destruct v; cbn [scalar check_child]; (discriminate || reflexivity). Qed.

Lemma isNaN_number (x : number) : isNaN (VNum x) = Ok (is_nan x).
Proof. reflexivity. Qed.

(** ** Formatting of the goal fields *)

Lemma timeRemaining_scalar (v : value) :
  scalar v = true -> exists t, Detail.timeRemaining v = Ok t.
Proof.
  intros H. destruct (scalar_ToNumber v H) as [x Hx].
  unfold Detail.timeRemaining, Number. rewrite Hx. cbn [bind_result]. eauto.
Qed.

Lemma currency_text_scalar (v : value) :
  scalar v = true -> exists t, Detail.currency_text v = Ok t.
Proof.
  intros H. destruct (scalar_ToString v H) as [s Hs].
  unfold Detail.currency_text, parseFloat. rewrite Hs. cbn [bind_result].
  rewrite isNaN_number. cbn [bind_result].
  destruct (ToBoolean v); [destruct (negb _)|]; eauto.
Qed.

Lemma ratio_child_scalar (v : value) :
  scalar v = true ->
  exists c, Detail.ratio_child v = Ok c /\ check_child c = Ok tt.
Proof.
  intros H. destruct (scalar_ToString v H) as [s Hs].
  unfold Detail.ratio_child, parseFloat. rewrite Hs. cbn [bind_result].
  rewrite isNaN_number. cbn [bind_result].
  destruct (ToBoolean v); [destruct (negb _)|]; eexists; split;
    try reflexivity; try (now apply scalar_check_child).
Qed.

Lemma parsed_text_scalar (v : value) :
  scalar v = true -> exists t, Define.parsed_text v = Ok t.
Proof.
  intros H. destruct (scalar_ToString v H) as [s Hs].
  unfold Define.parsed_text, parseFloat. rewrite Hs. cbn [bind_result].
  rewrite isNaN_number. cbn [bind_result].
  destruct (is_nan _); eauto.
Qed.

Lemma rate_text_scalar (v : value) :
  scalar v = true -> exists t, Define.rate_text v = Ok t.
Proof.
  intros H. destruct (scalar_ToNumber v H) as [x Hx].
  unfold Define.rate_text, Define.rate_expr, isNaN, times. rewrite Hx.
  cbn [bind_result ToNumber].
  destruct (is_nan x); cbn [bind_result]; eauto.
Qed.

(** C9. The goal [casa] has [time_desired = 7].  The detail view shows it
    as "Tempo Estimado: 7.0 anos" ([Number], one decimal).  The
    definition-review view would show "7.00" ([parseFloat], two decimals),
    and does on [casa_numeric]; on [casa] it shows nothing, because the
    row of [dividends] throws on the string "5" while the view is
    rendered. *)
Theorem time_desired_seven_casa :
  lookup (lit "time_desired") casa = Some (num "7")
  /\ Detail.timeRemaining (num "7") = Ok (lit "7.0")
  /\ (exists rs,
      Detail.render (Detail.mkState (VObj casa) false) = Ok (Detail.Details rs)
      /\ Detail.highlight_time rs = lit "Tempo Estimado: 7.0 anos")
  /\ Define.parsed_text (num "7") = Ok (lit "7.00")
  /\ Define.render (Define.mkState (VObj casa) false false) = Throw TypeError
  /\ (exists rs,
      Define.render (Define.mkState (VObj casa_numeric) false false)
      = Ok (Define.Summary rs)
      /\ Define.row_time_desired rs = lit "7.00").
Proof.
  split; [vm_compute; reflexivity|].
  split; [vm_compute; reflexivity|].
  split; [eexists; split; vm_compute; reflexivity|].
  split; [vm_compute; reflexivity|].
  split; [vm_compute; reflexivity|].
  eexists; split; vm_compute; reflexivity.
Qed.

(** C1. On the goal [casa] the detail view shows [patrimony = "1234.5"] as
    "R$1234.50" and [my_patrimony = "abc"] as "R$0.00", but
    [monthly_aport = 1234.5] as "1234.50", without the currency prefix its
    own fallback and the two sibling rows carry. *)
Theorem detail_render_casa :
  Detail.render (Detail.mkState (VObj casa) false) =
  Ok (Detail.Details
        {| Detail.row_name := VStr (lit "Casa");
           Detail.row_patrimony := lit "R$1234.50";
           Detail.row_my_patrimony := lit "R$0.00";
           Detail.row_monthly_aport := lit "1234.50";
           Detail.row_dividends := VStr (lit "5");
           Detail.row_rate := VStr (lit "0.08");
           Detail.row_status := lit "Em Andamento";
           Detail.highlight_aport := lit "Aporte Necessário: 1234.50";
           Detail.highlight_time := lit "Tempo Estimado: 7.0 anos" |}).
Proof. vm_compute. reflexivity. Qed.

(** The row of [dividends] in the definition-review view throws on
    every string that converts to a number. *)
Lemma dividends_text_numeric_string (s : jsstring) :
  is_nan (StringToNumber s) = false ->
  Define.dividends_text (VStr s) = Throw TypeError.
Proof.
  intros H. unfold Define.dividends_text, isNaN. cbn [ToNumber bind_result].
  now rewrite H.
Qed.

(** So does the row of [monthly_aport] in the detail view, the empty
    string apart. *)
Lemma aport_text_numeric_string (s : jsstring) :
  s <> [] ->
  is_nan (StringToNumber s) = false ->
  Detail.aport_text (VStr s) = Throw TypeError.
Proof.
  intros Hs H. unfold Detail.aport_text, isNaN. cbn [ToNumber bind_result].
  rewrite H. destruct s; [contradiction | reflexivity].
Qed.

(** C2. The definition-review view throws a TypeError on the goal [casa],
    whose [dividends] is the numeric string "5": [isNaN("5")] is false and
    a string has no [toFixed].  The detail view throws in the same way
    when [monthly_aport] is the string "100". *)
Theorem render_throws_on_numeric_strings :
  Define.render (Define.mkState (VObj casa) false false) = Throw TypeError
  /\ Define.dividends_text (VStr (lit "5")) = Throw TypeError
  /\ Detail.render
       (Detail.mkState
          (VObj (assign (lit "monthly_aport") (VStr (lit "100")) casa)) false)
     = Throw TypeError.
Proof. vm_compute. repeat split. Qed.

(** ** Objects *)

Lemma lookup_delete_same (k : jsstring) (fs : list (jsstring * value)) :
  lookup k (delete k fs) = None.
Proof.
  induction fs as [|[k' v] fs IH]; simpl; [reflexivity|].
  destruct (str_eqb k k') eqn:E; simpl; [exact IH|].
  now rewrite E.
Qed.

Lemma lookup_delete_other (k k' : jsstring) (fs : list (jsstring * value)) :
  k' <> k -> lookup k' (delete k fs) = lookup k' fs.
Proof.
  intros Hne. induction fs as [|[k0 v] fs IH]; simpl; [reflexivity|].
  destruct (str_eqb k k0) eqn:E; simpl.
  - apply str_eqb_eq in E. subst k0.
    apply str_eqb_neq in Hne. now rewrite Hne.
  - now rewrite IH.
Qed.

Lemma lookup_assign_same (k : jsstring) (v : value) (fs : list (jsstring * value)) :
  lookup k (assign k v fs) = Some v.
Proof.
  induction fs as [|[k' v'] fs IH]; simpl.
  - now rewrite str_eqb_refl.
  - destruct (str_eqb k k') eqn:E; simpl; now rewrite E.
Qed.

(** ** Creating a goal *)

Section CreateGoal.

Context {E : Type}.
Variable respond : request -> E -> result response * E.
Variables token engine_message : jsstring.

Lemma handleCreateGoal_request
  (w : world Define.state E) (fs payload : list (jsstring * value)) :
  Define.goalData (state w) = VObj fs ->
  Define.dataToSend (VObj fs) = Ok payload ->
  exists evs w',
    Define.handleCreateGoal respond token engine_message w = (Ok tt, w')
    /\ trace w' =
       trace w
       ++ EFetch (mkRequest POST ApiGoals (headers token) (Some (VObj payload)))
       :: evs
    /\ Define.goalData (state w') = VObj fs.
Proof.
  intros Hg Hp.
  unfold Define.handleCreateGoal; exec.
  rewrite Hg, Hp. exec.
  destruct (respond _ _) as [[resp|e] e']; exec.
  - destruct (ok resp); exec.
    + destruct (json resp) as [created|e]; exec.
      * destruct (get created _) as [gid|e]; exec.
        -- destruct (get gid _) as [i|e]; exec; traced; exact Hg.
        -- traced; exact Hg.
      * traced; exact Hg.
    + destruct (json resp) as [errorData|e]; exec.
      * destruct (get errorData _) as [m|e]; exec.
        -- destruct (ToString _) as [text|e]; exec; traced; exact Hg.
        -- traced; exact Hg.
      * traced; exact Hg.
  - traced; exact Hg.
Qed.

(** C3, as the code has it. For a draft object, Create sends one POST to
    the goals endpoint whose body is the draft without [monthly_aport]
    when the draft's [monthly_aport] is truthy, and the draft as it is
    when that value is falsy or missing; every other field is sent
    unchanged in both cases. *)
Theorem create_strips_truthy_monthly_aport
  (w : world Define.state E) (fs : list (jsstring * value)) :
  Define.goalData (state w) = VObj fs ->
  exists payload evs w',
    Define.handleCreateGoal respond token engine_message w = (Ok tt, w')
    /\ trace w' =
       trace w
       ++ EFetch (mkRequest POST ApiGoals (headers token) (Some (VObj payload)))
       :: evs
    /\ (ToBoolean (prop fs "monthly_aport") = true ->
        lookup (lit "monthly_aport") payload = None)
    /\ (ToBoolean (prop fs "monthly_aport") = false -> payload = fs)
    /\ (forall k, k <> lit "monthly_aport" -> lookup k payload = lookup k fs).
Proof.
  intros Hg.
  set (payload := if ToBoolean (prop fs "monthly_aport")
                  then delete (lit "monthly_aport") fs else fs).
  assert (Hp : Define.dataToSend (VObj fs) = Ok payload) by reflexivity.
  destruct (handleCreateGoal_request w fs payload Hg Hp) as (evs & w' & Hrun & Htr & _).
  exists payload, evs, w'. repeat split; try assumption.
  - intros Ht. unfold payload. rewrite Ht. apply lookup_delete_same.
  - intros Hf. unfold payload. now rewrite Hf.
  - intros k Hk. unfold payload.
    destruct (ToBoolean _); [now apply lookup_delete_other | reflexivity].
Qed.

End CreateGoal.

(** C3, counterexample. With [monthly_aport = 0] in the draft, the body of
    the POST still has the field, with the value 0. *)
Lemma create_keeps_zero_monthly_aport :
  exists evs w',
    Define.handleCreateGoal Server.serve some_token some_wording
      (define_world (VObj zero_draft) []) = (Ok tt, w')
    /\ trace w' =
       EFetch (mkRequest POST ApiGoals (headers some_token) (Some (VObj zero_draft)))
       :: evs
    /\ lookup (lit "monthly_aport") zero_draft = Some (num "0").
Proof.
  eexists. eexists. vm_compute. repeat split.
Qed.

Lemma create_strips_truthy_monthly_aport_witness :
  Define.goalData (state (define_world (VObj casa) [])) = VObj casa
  /\ ToBoolean (prop casa "monthly_aport") = true
  /\ exists payload evs w',
    Define.handleCreateGoal Server.serve some_token some_wording
      (define_world (VObj casa) []) = (Ok tt, w')
    /\ trace w' =
       EFetch (mkRequest POST ApiGoals (headers some_token) (Some (VObj payload)))
       :: evs
    /\ lookup (lit "monthly_aport") payload = None
    /\ lookup (lit "patrimony") payload = Some (VStr (lit "1234.5")).
Proof.
  assert (Hg : Define.goalData (state (define_world (VObj casa) [])) = VObj casa)
    by reflexivity.
  assert (Ht : ToBoolean (prop casa "monthly_aport") = true) by reflexivity.
  split; [exact Hg|]. split; [exact Ht|].
  destruct (create_strips_truthy_monthly_aport Server.serve some_token some_wording
              (define_world (VObj casa) []) casa Hg)
    as (payload & evs & w' & Hrun & Htr & Hstrip & _ & Hkeep).
  exists payload, evs, w'.
  split; [exact Hrun|]. split; [exact Htr|]. split; [exact (Hstrip Ht)|].
  rewrite Hkeep; [reflexivity | discriminate].
Defined.

(** ** The handlers of the detail screen *)

Section DetailHandlers.

Context {E : Type}.
Variable respond : request -> E -> result response * E.
Variables goalId token : jsstring.

#[local] Abbreviation W := (world Detail.state E).
#[local] Abbreviation read_request := (Detail.api token GET (ApiGoal goalId)).
#[local] Abbreviation delete_request := (Detail.api token DELETE (ApiGoal goalId)).
#[local] Abbreviation body_label := (LVal (VStr (lit "Error response data:"))).

(** Awaiting the whole of [fetchGoalData] is starting it and resuming it
    when the response is there. *)
Lemma fetchGoalData_split (w : W) :
  Detail.fetchGoalData respond goalId token w =
  bind (Detail.fetchGoalData_start goalId token)
       (fun _ => Detail.fetchGoalData_resume respond) w.
Proof.
  unfold Detail.fetchGoalData, Detail.fetchGoalData_start,
    Detail.fetchGoalData_resume, Detail.setLoading.
  exec. destruct w as [s p t e]. cbn [state pending trace env].
  destruct (respond _ e) as [[resp|err] e']; reflexivity.
Qed.

(** C7. Every run of [fetchGoalData] returns normally with the loading
    flag cleared, having sent the one read request; when the request
    failed (an exception of [fetch] or a non-success status) the alert
    "Falha ao buscar os dados da meta." was raised and the error was
    logged, and so was the response body when it could be read. *)
Theorem fetchGoalData_always_completes (w : W) :
  exists evs w',
    Detail.fetchGoalData respond goalId token w = (Ok tt, w')
    /\ trace w' = trace w ++ EFetch read_request :: evs
    /\ Detail.loading (state w') = false
    /\ (failed (fst (respond read_request (env w))) = true ->
        In (EAlert (lit "Erro") (lit "Falha ao buscar os dados da meta.")) evs
        /\ (exists err, In (EConsoleError [LExn err]) evs)
        /\ (forall resp body,
              fst (respond read_request (env w)) = Ok resp ->
              text resp = Ok body ->
              In (EConsoleError [body_label; LVal (VStr body)]) evs)).
Proof.
  unfold Detail.fetchGoalData, Detail.fetchGoalData_rest, Detail.check_ok,
    Detail.on_error, Detail.setLoading, Detail.setGoalData, failed.
  exec.
  destruct (respond _ _) as [[resp|err] e']; exec; cbn [fst].
  - destruct (ok resp); exec.
    + destruct (json resp) as [data|err]; exec.
      * destruct (get0 data) as [first|err]; exec; traced;
          (split; [reflexivity | discriminate]).
      * traced; (split; [reflexivity | discriminate]).
    + destruct (text resp) as [body|err] eqn:Ht; exec; traced;
        (split; [reflexivity | intros _]).
      * split; [simpl; auto|]. split; [eexists; simpl; eauto|].
        intros r b Hr Hb. injection Hr as <-. rewrite Ht in Hb.
        injection Hb as <-. simpl; auto.
      * split; [simpl; auto|]. split; [eexists; simpl; eauto|].
        intros r b Hr Hb. injection Hr as <-. rewrite Ht in Hb. discriminate.
  - traced. split; [reflexivity | intros _].
    split; [simpl; auto|]. split; [eexists; simpl; eauto|].
    intros r b Hr. discriminate.
Qed.

(** C10. When the read succeeds with an empty array, [goalData] becomes
    the missing first element, undefined; the loading flag is cleared; the
    request is the only effect, so no alert is raised; and the screen
    renders the static error text. *)
Theorem fetchGoalData_empty_array (w : W) (resp : response) (e' : E) :
  respond read_request (env w) = (Ok resp, e') ->
  ok resp = true ->
  json resp = Ok (VArr []) ->
  exists w',
    Detail.fetchGoalData respond goalId token w = (Ok tt, w')
    /\ state w' = Detail.mkState VUndefined false
    /\ trace w' = trace w ++ [EFetch read_request]
    /\ Detail.render (state w') =
       Ok (Detail.ErrorText (lit "Erro ao carregar os dados do plano de ação.")).
Proof.
  intros Hr Hok Hjson.
  unfold Detail.fetchGoalData, Detail.fetchGoalData_rest, Detail.check_ok,
    Detail.on_error, Detail.setLoading, Detail.setGoalData.
  exec. rewrite Hr. exec. rewrite Hok. exec. rewrite Hjson. cbn [get0]. exec.
  eexists. split; [reflexivity|]. split; [reflexivity|]. split; reflexivity.
Qed.

(** C6. [deleteGoal] never touches [goalData].  On a non-success status it
    raises the alert "Falha ao deletar a meta.", logs the response body
    when it could be read, and navigates nowhere; on a success status its
    only further effect is the navigation to "Metas". *)
Theorem deleteGoal_outcomes (w : W) (resp : response) (e' : E) :
  respond delete_request (env w) = (Ok resp, e') ->
  exists evs w',
    Detail.deleteGoal respond goalId token w = (Ok tt, w')
    /\ trace w' = trace w ++ EFetch delete_request :: evs
    /\ Detail.goalData (state w') = Detail.goalData (state w)
    /\ (ok resp = false ->
        In (EAlert (lit "Erro") (lit "Falha ao deletar a meta.")) evs
        /\ (forall body, text resp = Ok body ->
              In (EConsoleError [body_label; LVal (VStr body)]) evs)
        /\ (forall screen params, ~ In (ENavigate screen params) evs))
    /\ (ok resp = true -> evs = [ENavigate (lit "Metas") VUndefined]).
Proof.
  intros Hr.
  unfold Detail.deleteGoal, Detail.check_ok, Detail.on_error, Detail.setLoading.
  exec. rewrite Hr. exec.
  destruct (ok resp); exec.
  - traced. split; [reflexivity|]. split; [discriminate | reflexivity].
  - destruct (text resp) as [body|err] eqn:Ht; exec; traced;
      (split; [reflexivity|]); (split; [intros _ | discriminate]).
    + split; [simpl; auto|]. split.
      * intros b Hb. injection Hb as <-. simpl; auto.
      * intros s p H. simpl in H. intuition discriminate.
    + split; [simpl; auto|]. split.
      * intros b Hb. discriminate.
      * intros s p H. simpl in H. intuition discriminate.
Qed.

End DetailHandlers.

Lemma fetchGoalData_always_completes_witness :
  failed (fst (Server.serve (Detail.api some_token GET (ApiGoal (lit "g1"))) [])) = true
  /\ exists evs w',
      Detail.fetchGoalData Server.serve (lit "g1") some_token
        (detail_world (Detail.initial VUndefined) []) = (Ok tt, w')
      /\ Detail.loading (state w') = false
      /\ In (EAlert (lit "Erro") (lit "Falha ao buscar os dados da meta.")) evs
      /\ In (EConsoleError [LVal (VStr (lit "Error response data:"));
                            LVal (VStr (lit "Goal not found"))]) evs.
Proof.
  assert (H : failed (fst (Server.serve (Detail.api some_token GET (ApiGoal (lit "g1"))) []))
              = true) by reflexivity.
  split; [exact H|].
  destruct (fetchGoalData_always_completes Server.serve (lit "g1") some_token
              (detail_world (Detail.initial VUndefined) []))
    as (evs & w' & Hrun & _ & Hload & Hfail).
  destruct (Hfail H) as (Halert & _ & Hbody).
  exists evs, w'.
  split; [exact Hrun|]. split; [exact Hload|]. split; [exact Halert|].
  apply (Hbody Server.not_found); reflexivity.
Defined.

Lemma fetchGoalData_empty_array_witness :
  exists w',
    Detail.fetchGoalData empty_list_server (lit "g1") some_token
      (mkWorld (Detail.initial VUndefined) [] [] tt) = (Ok tt, w')
    /\ state w' = Detail.mkState VUndefined false
    /\ trace w' = [EFetch (Detail.api some_token GET (ApiGoal (lit "g1")))]
    /\ Detail.render (state w') =
       Ok (Detail.ErrorText (lit "Erro ao carregar os dados do plano de ação.")).
Proof.
  apply (fetchGoalData_empty_array empty_list_server (lit "g1") some_token
           (mkWorld (Detail.initial VUndefined) [] [] tt)
           (Server.success (Ok (VArr []))) tt); reflexivity.
Defined.

Lemma deleteGoal_outcomes_witness :
  Server.serve (Detail.api some_token DELETE (ApiGoal (lit "g1"))) [] = (Ok Server.not_found, [])
  /\ ok Server.not_found = false
  /\ exists evs w',
      Detail.deleteGoal Server.serve (lit "g1") some_token
        (detail_world (Detail.initial (VObj casa)) []) = (Ok tt, w')
      /\ Detail.goalData (state w') = VObj casa
      /\ In (EAlert (lit "Erro") (lit "Falha ao deletar a meta.")) evs
      /\ In (EConsoleError [LVal (VStr (lit "Error response data:"));
                            LVal (VStr (lit "Goal not found"))]) evs
      /\ ~ In (ENavigate (lit "Metas") VUndefined) evs.
Proof.
  assert (H : Server.serve (Detail.api some_token DELETE (ApiGoal (lit "g1"))) []
              = (Ok Server.not_found, [])) by reflexivity.
  split; [exact H|]. split; [reflexivity|].
  destruct (deleteGoal_outcomes Server.serve (lit "g1") some_token
              (detail_world (Detail.initial (VObj casa)) []) Server.not_found [] H)
    as (evs & w' & Hrun & _ & Hgoal & Hfail & _).
  destruct (Hfail eq_refl) as (Halert & Hbody & Hnav).
  exists evs, w'.
  split; [exact Hrun|]. split; [exact Hgoal|]. split; [exact Halert|].
  split; [apply Hbody; reflexivity | apply Hnav].
Defined.

(** ** Finalize and reopen against the remote API *)

Section NoLocalStatus.

Context {E : Type}.
Variable respond : request -> E -> result response * E.
Variables goalId token : jsstring.

(** Neither handler writes [goalData] itself: whatever the answer, the
    goal held by the screen is the same after the handler's own run. *)
Lemma finalizeGoal_keeps_goalData (w : world Detail.state E) :
  Detail.goalData (state (snd (Detail.finalizeGoal respond goalId token w)))
  = Detail.goalData (state w).
Proof.
  unfold Detail.finalizeGoal, Detail.fetchGoalData_start, Detail.check_ok,
    Detail.on_error, Detail.setLoading.
  exec. destruct (respond _ _) as [[resp|err] e']; exec; [|reflexivity].
  destruct (ok resp); exec; [reflexivity|].
  destruct (text resp); reflexivity.
Qed.

Lemma reopenGoal_keeps_goalData (w : world Detail.state E) :
  Detail.goalData (state (snd (Detail.reopenGoal respond goalId token w)))
  = Detail.goalData (state w).
Proof.
  unfold Detail.reopenGoal, Detail.fetchGoalData_start, Detail.check_ok,
    Detail.on_error, Detail.setLoading.
  exec. destruct (respond _ _) as [[resp|err] e']; exec; [|reflexivity].
  destruct (ok resp); exec; [reflexivity|].
  destruct (text resp); reflexivity.
Qed.

End NoLocalStatus.

Lemma serve_read (goalId token : jsstring) (db : Server.store) (g : value) :
  lookup goalId db = Some g ->
  Server.serve (Detail.api token GET (ApiGoal goalId)) db
  = (Ok (Server.success (Ok (VArr [g]))), db).
Proof. intros H. unfold Server.serve. cbn. now rewrite H. Qed.

Lemma serve_finalize (goalId token : jsstring) (db : Server.store) (g : value) :
  lookup goalId db = Some g ->
  Server.serve (Detail.api token POST (ApiFinalize goalId)) db
  = (Ok (Server.success Server.no_body), assign goalId (Server.set_status true g) db).
Proof. intros H. unfold Server.serve. cbn. now rewrite H. Qed.

Lemma serve_reopen (goalId token : jsstring) (db : Server.store) (g : value) :
  lookup goalId db = Some g ->
  Server.serve (Detail.api token POST (ApiReopen goalId)) db
  = (Ok (Server.success Server.no_body), assign goalId (Server.set_status false g) db).
Proof. intros H. unfold Server.serve. cbn. now rewrite H. Qed.

Lemma finalize_step_run
  (goalId token : jsstring) (w : world Detail.state Server.store)
  (fs : list (jsstring * value)) :
  lookup goalId (env w) = Some (VObj fs) ->
  finalize_step goalId token w =
  (Ok tt,
   mkWorld
     (Detail.mkState (Server.set_status true (VObj fs)) false)
     (pending w)
     (trace w
      ++ [EFetch (Detail.api token POST (ApiFinalize goalId));
          EFetch (Detail.api token GET (ApiGoal goalId));
          EAlert (lit "Sucesso") (lit "Meta finalizada com sucesso.")])
     (assign goalId (Server.set_status true (VObj fs)) (env w))).
Proof.
  intros H.
  unfold finalize_step, Detail.finalizeGoal, Detail.fetchGoalData_resume,
    Detail.fetchGoalData_start, Detail.fetchGoalData_rest, Detail.check_ok,
    Detail.on_error, Detail.setLoading, Detail.setGoalData.
  exec. rewrite (serve_finalize goalId token _ _ H).
  cbn [Server.success ok]. exec.
  rewrite (serve_read goalId token _ _ (lookup_assign_same goalId _ (env w))).
  cbn [Server.success ok json]. exec. cbn [get0]. exec.
  rewrite <- !app_assoc. reflexivity.
Qed.

Lemma reopen_step_run
  (goalId token : jsstring) (w : world Detail.state Server.store)
  (fs : list (jsstring * value)) :
  lookup goalId (env w) = Some (VObj fs) ->
  reopen_step goalId token w =
  (Ok tt,
   mkWorld
     (Detail.mkState (Server.set_status false (VObj fs)) false)
     (pending w)
     (trace w
      ++ [EFetch (Detail.api token POST (ApiReopen goalId));
          EFetch (Detail.api token GET (ApiGoal goalId));
          EAlert (lit "Sucesso") (lit "Meta reaberta com sucesso.")])
     (assign goalId (Server.set_status false (VObj fs)) (env w))).
Proof.
  intros H.
  unfold reopen_step, Detail.reopenGoal, Detail.fetchGoalData_resume,
    Detail.fetchGoalData_start, Detail.fetchGoalData_rest, Detail.check_ok,
    Detail.on_error, Detail.setLoading, Detail.setGoalData.
  exec. rewrite (serve_reopen goalId token _ _ H).
  cbn [Server.success ok]. exec.
  rewrite (serve_read goalId token _ _ (lookup_assign_same goalId _ (env w))).
  cbn [Server.success ok json]. exec. cbn [get0]. exec.
  rewrite <- !app_assoc. reflexivity.
Qed.

Lemma bind_assoc {S E A B C : Type}
  (m : M S E A) (k : A -> M S E B) (h : B -> M S E C) (w : world S E) :
  bind (bind m k) h w = bind m (fun a => bind (k a) h) w.
Proof. unfold bind. destruct (m w) as [[a|e] w']; reflexivity. Qed.

Lemma finalize_then_reopen_steps
  (goalId token : jsstring) (w : world Detail.state Server.store) :
  finalize_then_reopen goalId token w =
  bind (finalize_step goalId token) (fun _ => reopen_step goalId token) w.
Proof.
  unfold finalize_then_reopen, finalize_step, reopen_step.
  now rewrite bind_assoc.
Qed.

Lemma status_after_set (b : bool) (fs : list (jsstring * value)) :
  get (Server.set_status b (VObj fs)) (lit "status") = Ok (VBool b).
Proof.
  unfold Server.set_status, get. now rewrite lookup_assign_same.
Qed.

(** C8. With the goal stored on a server that honours the contract,
    finalize followed by reopen leaves the screen holding the goal as the
    server has it, with [status] false.  Each step sends its POST, then one
    read of the goal, and raises its one success alert; the status shown
    in between is the re-read one, true; and neither handler writes
    [goalData] in its own run, whatever the server answers. *)
Theorem finalize_reopen_round_trip
  (goalId token : jsstring) (w : world Detail.state Server.store)
  (fs : list (jsstring * value)) :
  lookup goalId (env w) = Some (VObj fs) ->
  (exists w1 w2,
      finalize_step goalId token w = (Ok tt, w1)
      /\ reopen_step goalId token w1 = (Ok tt, w2)
      /\ finalize_then_reopen goalId token w = (Ok tt, w2)
      /\ trace w1 =
         trace w
         ++ [EFetch (Detail.api token POST (ApiFinalize goalId));
             EFetch (Detail.api token GET (ApiGoal goalId));
             EAlert (lit "Sucesso") (lit "Meta finalizada com sucesso.")]
      /\ trace w2 =
         trace w1
         ++ [EFetch (Detail.api token POST (ApiReopen goalId));
             EFetch (Detail.api token GET (ApiGoal goalId));
             EAlert (lit "Sucesso") (lit "Meta reaberta com sucesso.")]
      /\ get (Detail.goalData (state w1)) (lit "status") = Ok (VBool true)
      /\ get (Detail.goalData (state w2)) (lit "status") = Ok (VBool false)
      /\ lookup goalId (env w2) = Some (Detail.goalData (state w2)))
  /\ (forall (E : Type) (respond : request -> E -> result response * E)
        (u : world Detail.state E),
        Detail.goalData (state (snd (Detail.finalizeGoal respond goalId token u)))
        = Detail.goalData (state u)
        /\ Detail.goalData (state (snd (Detail.reopenGoal respond goalId token u)))
           = Detail.goalData (state u)).
Proof.
  intros H. split.
  - pose proof (finalize_step_run goalId token w fs H) as H1.
    set (w1 := snd (finalize_step goalId token w)).
    assert (Hw1 : finalize_step goalId token w = (Ok tt, w1))
      by (unfold w1; rewrite H1; reflexivity).
    assert (He1 : lookup goalId (env w1)
                  = Some (VObj (assign (lit "status") (VBool true) fs)))
      by (unfold w1; rewrite H1; cbn [snd env]; apply lookup_assign_same).
    pose proof (reopen_step_run goalId token w1 _ He1) as H2.
    set (w2 := snd (reopen_step goalId token w1)).
    assert (Hw2 : reopen_step goalId token w1 = (Ok tt, w2))
      by (unfold w2; rewrite H2; reflexivity).
    exists w1, w2.
    split; [exact Hw1|]. split; [exact Hw2|].
    split; [rewrite finalize_then_reopen_steps; unfold bind; rewrite Hw1; exact Hw2|].
    split; [unfold w1; rewrite H1; reflexivity|].
    split; [unfold w2; rewrite H2; reflexivity|].
    split; [unfold w1; rewrite H1; cbn [snd state Detail.goalData];
            apply status_after_set|].
    split; [unfold w2; rewrite H2; cbn [snd state Detail.goalData];
            apply (status_after_set false)|].
    unfold w2. rewrite H2. cbn [snd state env Detail.goalData].
    apply lookup_assign_same.
  - intros E respond u. split.
    + apply finalizeGoal_keeps_goalData.
    + apply reopenGoal_keeps_goalData.
Qed.

Lemma finalize_reopen_round_trip_witness :
  lookup (lit "g1") (env (detail_world (Detail.initial (VObj casa)) casa_store))
  = Some (VObj casa)
  /\ exists w2,
      finalize_then_reopen (lit "g1") some_token
        (detail_world (Detail.initial (VObj casa)) casa_store) = (Ok tt, w2)
      /\ get (Detail.goalData (state w2)) (lit "status") = Ok (VBool false).
Proof.
  assert (H : lookup (lit "g1")
                (env (detail_world (Detail.initial (VObj casa)) casa_store))
              = Some (VObj casa)) by reflexivity.
  split; [exact H|].
  destruct (finalize_reopen_round_trip (lit "g1") some_token
              (detail_world (Detail.initial (VObj casa)) casa_store) casa H)
    as ((w1 & w2 & _ & _ & Hrun & _ & _ & _ & Hstatus & _) & _).
  exists w2. split; [exact Hrun | exact Hstatus].
Defined.

(** ** Strings with no numeric literal in front *)

Lemma span_digits_nil (s : jsstring) :
  fst (span_digits s) = [] <->
  match s with c :: _ => is_digit c = false | [] => True end.
Proof.
  destruct s as [|c s]; simpl; [tauto|].
  destruct (is_digit c).
  - destruct (span_digits s). simpl. split; discriminate.
  - simpl. tauto.
Qed.

Lemma parse_unsigned_none (neg : bool) (r : jsstring) :
  parse_unsigned neg r = None <-> numeric_head r = false.
Proof.
  unfold parse_unsigned, numeric_head.
  destruct (strip_prefix (lit "Infinity") r); [split; discriminate|].
  destruct r as [|c r]; [simpl; tauto|].
  cbn [span_digits].
  destruct (is_digit c) eqn:Hc.
  - destruct (span_digits r) as [d r1].
    destruct r1 as [|c1 r1]; cbn [app orb].
    + destruct (parse_exponent []). split; discriminate.
    + destruct (c1 =? 46)%N.
      * destruct (span_digits r1) as [fp r2]. cbn [app].
        destruct (parse_exponent r2). split; discriminate.
      * cbn [app]. destruct (parse_exponent (c1 :: r1)). split; discriminate.
  - cbn [orb]. destruct (c =? 46)%N; cbn [andb]; [|cbn [app]; tauto].
    pose proof (span_digits_nil r) as Hs.
    destruct (span_digits r) as [fp r2]. cbn [fst] in Hs.
    destruct fp as [|f fp]; cbn [app].
    + split; [intros _|reflexivity].
      destruct r as [|d r]; [reflexivity|]. now apply Hs.
    + destruct (parse_exponent r2). split; [discriminate|].
      intros H.
      assert (f :: fp = []) by (apply Hs; destruct r; [exact I | exact H]).
      discriminate.
Qed.

Lemma strip_prefix_app (p s q r : jsstring) :
  strip_prefix p s = Some r -> strip_prefix p (s ++ q) = Some (r ++ q).
Proof.
  revert s. induction p as [|x p IH]; intros s; simpl.
  - now intros [= ->].
  - destruct s as [|y s]; [discriminate|]. simpl.
    destruct (x =? y)%N; [apply IH | discriminate].
Qed.

Lemma numeric_head_app (r q : jsstring) :
  numeric_head r = true -> numeric_head (r ++ q) = true.
Proof.
  unfold numeric_head.
  destruct (strip_prefix (lit "Infinity") r) eqn:Hi.
  - now rewrite (strip_prefix_app _ _ q _ Hi).
  - destruct (strip_prefix (lit "Infinity") (r ++ q)); [reflexivity|].
    destruct r as [|c r]; [discriminate|]. cbn [app].
    destruct (is_digit c); [reflexivity|]. cbn [orb].
    destruct (c =? 46)%N; [|discriminate]. cbn [andb].
    destruct r as [|d r]; [discriminate|]. cbn [app]. trivial.
Qed.

Lemma parse_prefix_none (s : jsstring) :
  parse_prefix s = None <-> numeric_head (snd (parse_sign s)) = false.
Proof.
  unfold parse_prefix. destruct (parse_sign s) as [neg r].
  apply parse_unsigned_none.
Qed.

Lemma parse_sign_app (c : code_unit) (s q : jsstring) :
  snd (parse_sign ((c :: s) ++ q)) = snd (parse_sign (c :: s)) ++ q.
Proof.
  cbn [app parse_sign].
  destruct (c =? 43)%N; [reflexivity|].
  destruct (c =? 45)%N; reflexivity.
Qed.

(** A string with no literal in front has none in front of any of its
    prefixes. *)
Lemma parse_prefix_none_prefix (p q : jsstring) :
  parse_prefix (p ++ q) = None -> parse_prefix p = None.
Proof.
  destruct p as [|c p]; [intros _; reflexivity|].
  rewrite !parse_prefix_none, parse_sign_app.
  intros H. destruct (numeric_head (snd (parse_sign (c :: p)))) eqn:E; [|reflexivity].
  now rewrite (numeric_head_app _ q E) in H.
Qed.

Lemma trim_start_suffix (s : jsstring) : exists ws, s = ws ++ trim_start s.
Proof.
  induction s as [|c s [ws IH]]; simpl.
  - now exists [].
  - destruct (is_whitespace c).
    + exists (c :: ws). simpl. now f_equal.
    + now exists [].
Qed.

Lemma trim_end_prefix (s : jsstring) : exists ws, s = trim_end s ++ ws.
Proof.
  unfold trim_end. destruct (trim_start_suffix (rev s)) as [ws H].
  exists (rev ws). rewrite <- rev_app_distr, <- H. now rewrite rev_involutive.
Qed.

Lemma parse_nondecimal_head (t : jsstring) (z : Z) :
  parse_nondecimal t = Some z -> numeric_head (snd (parse_sign t)) = true.
Proof.
  destruct t as [|c [|p [|d t]]]; try discriminate.
  cbn [parse_nondecimal]. destruct (N.eqb_spec c 48) as [->|]; [|discriminate].
  intros _. reflexivity.
Qed.

(** A string that is not blank and has no literal in front converts to
    NaN. *)
Lemma StringToNumber_no_literal (s : jsstring) :
  trim s <> [] ->
  parse_prefix (trim_start s) = None ->
  StringToNumber s = NaN.
Proof.
  intros Hblank Hnone. unfold StringToNumber.
  destruct (trim s) as [|c t] eqn:Ht; [contradiction|].
  assert (Hp : parse_prefix (c :: t) = None).
  { destruct (trim_end_prefix (trim_start s)) as [ws Hws].
    rewrite <- Ht. unfold trim. apply (parse_prefix_none_prefix _ ws).
    now rewrite <- Hws. }
  rewrite Hp.
  destruct (parse_nondecimal (c :: t)) as [z|] eqn:Hn; [|reflexivity].
  apply parse_nondecimal_head in Hn. apply parse_prefix_none in Hp. congruence.
Qed.

(** ** Dividends and rate *)

Lemma non_numeric_isNaN (v : value) : non_numeric v = true -> isNaN v = Ok true.
Proof.
  destruct v as [| | b | x | s | l | fs]; simpl; try discriminate.
  - reflexivity.
  - unfold isNaN. cbn [ToNumber bind_result]. now intros ->.
  - intros H. unfold isNaN. cbn [ToNumber bind_result].
    destruct (trim s) as [|c t] eqn:Ht; [discriminate|].
    destruct (parse_prefix (trim_start s)) eqn:Hp; [discriminate|].
    rewrite StringToNumber_no_literal; [reflexivity | | exact Hp].
    rewrite Ht. discriminate.
Qed.

Lemma non_numeric_guard (v : value) :
  non_numeric v = true -> Detail.ratio_child v = Ok (VStr (lit "N/A")).
Proof.
  unfold Detail.ratio_child, parseFloat.
  destruct v as [| | b | x | s | l | fs]; simpl; try discriminate.
  - reflexivity.
  - destruct x; try discriminate; reflexivity.
  - intros H. unfold parseFloat_string.
    destruct (trim s); [discriminate|].
    destruct (parse_prefix (trim_start s)); [discriminate|].
    destruct s; reflexivity.
Qed.

(** A field that is missing, NaN, or a string that is not blank and has
    no numeric literal in front is shown as "N/A" by the detail view's
    rows of dividends and rate and by the definition-review view's row of
    dividends; the definition-review row of rate shows "N/A" followed by
    its percent sign. *)
Lemma non_numeric_rows (v : value) :
  non_numeric v = true ->
  Detail.ratio_child v = Ok (VStr (lit "N/A"))
  /\ Define.dividends_text v = Ok (lit "N/A")
  /\ Define.rate_expr v = Ok (lit "N/A")
  /\ Define.rate_text v = Ok (lit "N/A%").
Proof.
  intros H.
  pose proof (non_numeric_isNaN v H) as Hn.
  pose proof (non_numeric_guard v H) as Hg.
  unfold Define.dividends_text, Define.rate_text, Define.rate_expr.
  rewrite Hn, Hg. repeat split.
Qed.

(** C4. On the goal [blank_rate], whose [rate] is the empty string, the
    definition-review view shows the rate as "0.00%": [isNaN("")] is
    false and ["" * 100] is 0.  The detail view shows "N/A" for the same
    field of the same goal, as the claim has it, and so do the rows of
    the definition-review view that parse their field ([my_patrimony]
    here).  A null [rate] is shown as "0.00%" in the same way. *)
Theorem define_render_blank_rate :
  lookup (lit "rate") blank_rate = Some (VStr [])
  /\ Define.render (Define.mkState (VObj blank_rate) false false) =
     Ok (Define.Summary
           {| Define.row_name := VStr (lit "Casa");
              Define.row_type := lit "Patrimônio";
              Define.row_patrimony := lit "1234.50";
              Define.row_dividends := lit "5.00";
              Define.row_my_patrimony := lit "N/A";
              Define.row_rate := lit "0.00%";
              Define.row_time_desired := lit "7.00" |})
  /\ (exists rs,
      Detail.render (Detail.mkState (VObj blank_rate) false)
      = Ok (Detail.Details rs)
      /\ Detail.row_rate rs = VStr (lit "N/A"))
  /\ Define.rate_text VNull = Ok (lit "0.00%")
  /\ Detail.ratio_child VNull = Ok (VStr (lit "N/A")).
Proof.
  split; [vm_compute; reflexivity|].
  split; [vm_compute; reflexivity|].
  split; [eexists; split; vm_compute; reflexivity|].
  split; vm_compute; reflexivity.
Qed.

(** ** Currency rows *)

Lemma currency_text_fallback (v : value) (x : number) :
  parseFloat v = Ok x ->
  ToBoolean v = false \/ is_nan x = true ->
  Detail.currency_text v = Ok (lit "R$0.00").
Proof.
  unfold Detail.currency_text. intros Hx [H|H].
  - now rewrite H.
  - rewrite Hx. cbn [bind_result]. rewrite isNaN_number. cbn [bind_result].
    rewrite H. now destruct (ToBoolean v).
Qed.

Lemma currency_text_formatted (v : value) (x : number) :
  ToBoolean v = true ->
  parseFloat v = Ok x ->
  is_nan x = false ->
  Detail.currency_text v = Ok (lit "R$" ++ toFixed 2 x).
Proof.
  unfold Detail.currency_text. intros -> -> H. cbn [bind_result].
  rewrite isNaN_number. cbn [bind_result]. now rewrite H.
Qed.

(** The row of [monthly_aport] has the prefix on its fallback only. *)
Lemma aport_text_formatted (x : number) :
  ToBoolean (VNum x) = true ->
  Detail.aport_text (VNum x) = Ok (toFixed 2 x).
Proof.
  unfold Detail.aport_text. intros H. rewrite H.
  destruct x; try discriminate; reflexivity.
Qed.

(** *** The shape of [toFixed] *)

Lemma is_digit_digit_char (d : Z) : 0 <= d < 10 -> is_digit (digit_char d) = true.
Proof.
  intros H.
  assert (Hd : d = 0 \/ d = 1 \/ d = 2 \/ d = 3 \/ d = 4 \/ d = 5 \/ d = 6
               \/ d = 7 \/ d = 8 \/ d = 9) by lia.
  repeat (destruct Hd as [->|Hd]; [reflexivity|]). subst. reflexivity.
Qed.

Lemma digits_fuel_digits (fuel : nat) (n : Z) (acc : jsstring) :
  Forall (fun c => is_digit c = true) acc ->
  Forall (fun c => is_digit c = true) (digits_fuel fuel n acc).
Proof.
  revert n acc. induction fuel as [|fuel IH]; intros n acc Hacc; simpl.
  - exact Hacc.
  - assert (Hc : Forall (fun c => is_digit c = true) (digit_char (n mod 10) :: acc)).
    { constructor; [|exact Hacc]. apply is_digit_digit_char.
      apply Z.mod_pos_bound. lia. }
    destruct (n <? 10); [exact Hc | now apply IH].
Qed.

Lemma digits_fuel_length (fuel : nat) (n : Z) (acc : jsstring) :
  (List.length acc <= List.length (digits_fuel (S fuel) n acc))%nat
  /\ (1 <= List.length (digits_fuel (S fuel) n acc))%nat.
Proof.
  revert n acc. induction fuel as [|fuel IH]; intros n acc.
  - simpl. destruct (n <? 10); simpl; lia.
  - change (digits_fuel (S (S fuel)) n acc)
      with (if n <? 10 then digit_char (n mod 10) :: acc
            else digits_fuel (S fuel) (n / 10) (digit_char (n mod 10) :: acc)).
    destruct (n <? 10); [cbn [List.length]; lia|].
    destruct (IH (n / 10) (digit_char (n mod 10) :: acc)) as [H1 H2].
    cbn [List.length] in H1. lia.
Qed.

Lemma decimal_digits_digits (n : Z) :
  Forall (fun c => is_digit c = true) (decimal_digits n).
Proof. apply digits_fuel_digits. constructor. Qed.

Lemma decimal_digits_nonempty (n : Z) : (1 <= List.length (decimal_digits n))%nat.
Proof. apply digits_fuel_length. Qed.

(** With [f > 0] fraction digits, the digits of [n] are laid out as a
    non-empty integer part, a point and exactly [f] digits. *)
Lemma fixed_digits_shape (n : Z) (f : nat) :
  (0 < f)%nat ->
  exists int frac,
    fixed_digits n f = int ++ lit "." ++ frac
    /\ (1 <= List.length int)%nat
    /\ List.length frac = f
    /\ Forall (fun c => is_digit c = true) (int ++ frac).
Proof.
  intros Hf. unfold fixed_digits. destruct f as [|f]; [lia|].
  pose proof (decimal_digits_nonempty n) as Hm.
  pose proof (decimal_digits_digits n) as Hd.
  remember (decimal_digits n) as m eqn:Em. clear Em.
  remember (repeat 48%N (S (S f) - List.length m) ++ m) as m' eqn:Em'.
  assert (Hlen : (S (S f) <= List.length m')%nat).
  { subst m'. rewrite length_app, repeat_length.
    unfold jsstring, code_unit in *. lia. }
  exists (firstn (List.length m' - S f) m'), (skipn (List.length m' - S f) m').
  split; [reflexivity|]. split; [rewrite length_firstn; lia|].
  split; [rewrite length_skipn; lia|].
  rewrite firstn_skipn. subst m'. apply Forall_app. split.
  - apply Forall_forall. intros c Hc. apply repeat_spec in Hc. now subst.
  - exact Hd.
Qed.

(** A finite Number below 10^21 in magnitude prints with exactly two
    decimal places. *)
Lemma toFixed_two_decimals (s : bool) (m : positive) (e : Z) :
  ge_1e21 m e = false ->
  exists int frac,
    toFixed 2 (S754_finite s m e)
    = (if s then lit "-" else []) ++ int ++ lit "." ++ frac
    /\ (1 <= List.length int)%nat
    /\ List.length frac = 2%nat
    /\ Forall (fun c => is_digit c = true) (int ++ frac).
Proof.
  intros H. unfold toFixed. rewrite H.
  destruct (fixed_digits_shape (scaled_round m e 2) 2) as (int & frac & Heq & Hrest);
    [lia|].
  exists int, frac. now rewrite Heq.
Qed.

(* ===================================================================== *)
(** * Further properties *)
(* ===================================================================== *)

(** ** The handlers of the detail screen, on every path *)

Section DetailEffects.

Context {E : Type}.
Variable respond : request -> E -> result response * E.
Variables goalId token : jsstring.

#[local] Abbreviation W := (world Detail.state E).
#[local] Abbreviation body_label := (LVal (VStr (lit "Error response data:"))).

(** The three mutating handlers never let an exception out, end with the
    loading flag cleared and leave [goalData] alone, whatever the network
    does. *)
Theorem mutators_always_complete (w : W) :
  (exists w', Detail.deleteGoal respond goalId token w = (Ok tt, w')
              /\ Detail.loading (state w') = false
              /\ Detail.goalData (state w') = Detail.goalData (state w))
  /\ (exists w', Detail.finalizeGoal respond goalId token w = (Ok tt, w')
                 /\ Detail.loading (state w') = false
                 /\ Detail.goalData (state w') = Detail.goalData (state w))
  /\ (exists w', Detail.reopenGoal respond goalId token w = (Ok tt, w')
                 /\ Detail.loading (state w') = false
                 /\ Detail.goalData (state w') = Detail.goalData (state w)).
Proof.
  split; [|split]; unfold_handlers; exec;
    (destruct (respond _ _) as [[resp|err] e']; exec;
     [destruct (ok resp); exec;
      [|destruct (text resp) as [body|err]; exec] |]);
    done_run; split; reflexivity.
Qed.

(** When [fetch] raises, each mutating handler sends its request, raises
    its own alert and logs the exception; nothing else happens: no
    navigation, no re-read, no success alert. *)
Theorem mutators_when_fetch_raises (w : W) (err : exn) :
  (forall r, fst (respond r (env w)) = Throw err) ->
  (exists w', Detail.deleteGoal respond goalId token w = (Ok tt, w')
      /\ trace w' = trace w
           ++ [EFetch (Detail.api token DELETE (ApiGoal goalId));
               EAlert (lit "Erro") (lit "Falha ao deletar a meta.");
               EConsoleError [LExn err]]
      /\ pending w' = pending w)
  /\ (exists w', Detail.finalizeGoal respond goalId token w = (Ok tt, w')
      /\ trace w' = trace w
           ++ [EFetch (Detail.api token POST (ApiFinalize goalId));
               EAlert (lit "Erro") (lit "Falha ao finalizar a meta.");
               EConsoleError [LExn err]]
      /\ pending w' = pending w)
  /\ (exists w', Detail.reopenGoal respond goalId token w = (Ok tt, w')
      /\ trace w' = trace w
           ++ [EFetch (Detail.api token POST (ApiReopen goalId));
               EAlert (lit "Erro") (lit "Falha ao reabrir a meta.");
               EConsoleError [LExn err]]
      /\ pending w' = pending w).
Proof.
  intros Hdown.
  split; [|split]; unfold_handlers; exec;
    match goal with
    | |- context [respond ?r (env w)] =>
        pose proof (Hdown r) as Hr;
        destruct (respond r (env w)) as [o e']; cbn [fst] in Hr; subst o
    end;
    exec; done_run; split; reflexivity.
Qed.

(** On a non-success status, finalize and reopen log the body, raise
    their own failure alert and log the error; they start no re-read and
    raise no success alert. *)
Theorem toggles_rejected (w : W) (resp : response) (e1 e2 : E) (body : jsstring) :
  respond (Detail.api token POST (ApiFinalize goalId)) (env w) = (Ok resp, e1) ->
  respond (Detail.api token POST (ApiReopen goalId)) (env w) = (Ok resp, e2) ->
  ok resp = false ->
  text resp = Ok body ->
  (exists w', Detail.finalizeGoal respond goalId token w = (Ok tt, w')
      /\ trace w' = trace w
           ++ [EFetch (Detail.api token POST (ApiFinalize goalId));
               EConsoleError [body_label; LVal (VStr body)];
               EAlert (lit "Erro") (lit "Falha ao finalizar a meta.");
               EConsoleError [LExn (Error (lit "Failed to finalize goal"))]]
      /\ pending w' = pending w)
  /\ (exists w', Detail.reopenGoal respond goalId token w = (Ok tt, w')
      /\ trace w' = trace w
           ++ [EFetch (Detail.api token POST (ApiReopen goalId));
               EConsoleError [body_label; LVal (VStr body)];
               EAlert (lit "Erro") (lit "Falha ao reabrir a meta.");
               EConsoleError [LExn (Error (lit "Failed to reopen goal"))]]
      /\ pending w' = pending w).
Proof.
  intros Hf Hr Hok Ht.
  split; unfold_handlers; exec; rewrite ?Hf, ?Hr; exec; rewrite Hok; exec;
    rewrite Ht; exec; done_run; split; reflexivity.
Qed.

(** A read that succeeds with a body whose element 0 can be taken stores
    that element, clears the loading flag and has no effect but the
    request. *)
Theorem fetchGoalData_success
  (w : W) (resp : response) (e' : E) (data first : value) :
  respond (Detail.api token GET (ApiGoal goalId)) (env w) = (Ok resp, e') ->
  ok resp = true ->
  json resp = Ok data ->
  get0 data = Ok first ->
  Detail.fetchGoalData respond goalId token w =
  (Ok tt,
   mkWorld (Detail.mkState first false) (pending w)
     (trace w ++ [EFetch (Detail.api token GET (ApiGoal goalId))]) e').
Proof.
  intros Hr Hok Hj Hg.
  unfold_handlers; exec. rewrite Hr. exec. rewrite Hok. exec.
  rewrite Hj. exec. rewrite Hg. exec. reflexivity.
Qed.

(** A read that succeeds with a body that is not JSON, or whose JSON is
    null, ends in the failure alert with the exception logged, and keeps
    the goal the screen had. *)
Theorem fetchGoalData_bad_body
  (w : W) (resp : response) (e' : E) (err : exn) :
  respond (Detail.api token GET (ApiGoal goalId)) (env w) = (Ok resp, e') ->
  ok resp = true ->
  json resp = Throw err \/ (json resp = Ok VNull /\ err = TypeError) ->
  Detail.fetchGoalData respond goalId token w =
  (Ok tt,
   mkWorld (Detail.mkState (Detail.goalData (state w)) false) (pending w)
     (trace w
      ++ [EFetch (Detail.api token GET (ApiGoal goalId));
          EAlert (lit "Erro") (lit "Falha ao buscar os dados da meta.");
          EConsoleError [LExn err]]) e').
Proof.
  intros Hr Hok [Hj | [Hj ->]];
    unfold_handlers; exec; rewrite Hr; exec; rewrite Hok; exec;
    rewrite Hj; exec; cbn [get0]; exec; rewrite <- !app_assoc; reflexivity.
Qed.

End DetailEffects.

(** ** Reads in sequence, mounting, and a re-read that fails *)

Section DetailRuns.

Context {E : Type}.
Variable respond : request -> E -> result response * E.
Variables goalId token : jsstring.

#[local] Abbreviation W := (world Detail.state E).

(** Reading twice in a row, with the same answer both times, shows what
    reading once shows. *)
Theorem fetchGoalData_twice (w : W) (o : result response) (e1 e2 : E) :
  respond (Detail.api token GET (ApiGoal goalId)) (env w) = (o, e1) ->
  respond (Detail.api token GET (ApiGoal goalId)) e1 = (o, e2) ->
  exists w1 w2,
    Detail.fetchGoalData respond goalId token w = (Ok tt, w1)
    /\ Detail.fetchGoalData respond goalId token w1 = (Ok tt, w2)
    /\ state w2 = state w1.
Proof.
  intros H1 H2. unfold_handlers. exec. rewrite H1.
  destruct o as [resp|err]; exec.
  - destruct (ok resp) eqn:Hok; exec.
    + destruct (json resp) as [data|err] eqn:Hj; exec.
      * destruct (get0 data) as [first|err] eqn:Hg; exec;
          eexists; eexists; (split; [reflexivity|]); exec; rewrite H2; exec;
          rewrite Hok; exec; rewrite Hj; exec; rewrite Hg; exec;
          split; reflexivity.
      * eexists; eexists; (split; [reflexivity|]); exec; rewrite H2; exec;
          rewrite Hok; exec; rewrite Hj; exec; split; reflexivity.
    + destruct (text resp) as [body|err] eqn:Ht; exec;
        eexists; eexists; (split; [reflexivity|]); exec; rewrite H2; exec;
        rewrite Hok; exec; rewrite Ht; exec; split; reflexivity.
  - eexists; eexists; (split; [reflexivity|]); exec; rewrite H2; exec;
      split; reflexivity.
Qed.

(** Mounted with a goal in [updatedGoalData], the screen starts with that
    goal and not loading, and the focus effect sends nothing. *)
Theorem mount_with_data (w : W) (updatedGoalData : value) :
  ToBoolean updatedGoalData = true ->
  Detail.initial updatedGoalData = Detail.mkState updatedGoalData false
  /\ Detail.on_focus goalId token updatedGoalData w = (Ok tt, w).
Proof.
  intros H. unfold Detail.initial, Detail.on_focus. rewrite H. split; reflexivity.
Qed.

(** Mounted without one, the screen starts loading; the focus effect sends
    the read, and when an array comes back its first element is what the
    screen holds, with the read as the only effect. *)
Theorem mount_without_data
  (w : W) (updatedGoalData : value) (resp : response) (e' : E) (g : value)
  (rest : list value) :
  ToBoolean updatedGoalData = false ->
  state w = Detail.initial updatedGoalData ->
  respond (Detail.api token GET (ApiGoal goalId)) (env w) = (Ok resp, e') ->
  ok resp = true ->
  json resp = Ok (VArr (g :: rest)) ->
  Detail.render (state w) = Ok (Detail.Loading (lit "Carregando detalhes da meta..."))
  /\ bind (Detail.on_focus goalId token updatedGoalData)
          (fun _ => Detail.fetchGoalData_resume respond) w =
     (Ok tt,
      mkWorld (Detail.mkState g false) (pending w)
        (trace w ++ [EFetch (Detail.api token GET (ApiGoal goalId))]) e').
Proof.
  intros Hu Hs Hr Hok Hj. split.
  - rewrite Hs. unfold Detail.initial, Detail.render. rewrite Hu. reflexivity.
  - unfold Detail.on_focus. unfold_handlers. rewrite Hu. exec. rewrite Hr. exec. rewrite Hok. exec.
    rewrite Hj. cbn [get0]. exec. reflexivity.
Qed.


End DetailRuns.

(** ** When rendering throws *)

Lemma dividends_text_throws (v : value) (e : exn) :
  Define.dividends_text v = Throw e <-> dividends_crashes v = true /\ e = TypeError.
Proof.
  unfold Define.dividends_text, dividends_crashes.
  destruct (isNaN v) as [nan|e0] eqn:Hn; cbn [bind_result].
  - destruct nan; cbn [negb andb].
    + split; [discriminate | intros [H _]; discriminate].
    + destruct v; cbn [call_toFixed is_number negb];
        (split; [intros H; inversion H; auto
                | intros [H ->]; (discriminate || reflexivity)]).
  - pose proof (isNaN_throws _ _ Hn) as ->.
    split; [intros H; injection H as <-; auto | intros [_ ->]; reflexivity].
Qed.

Lemma aport_text_throws (v : value) (e : exn) :
  Detail.aport_text v = Throw e <-> aport_crashes v = true /\ e = TypeError.
Proof.
  unfold Detail.aport_text, aport_crashes, dividends_crashes.
  destruct (ToBoolean v); cbn [andb];
    [|split; [discriminate | intros [H _]; discriminate]].
  destruct (isNaN v) as [nan|e0] eqn:Hn; cbn [bind_result].
  - destruct nan; cbn [negb andb].
    + split; [discriminate | intros [H _]; discriminate].
    + destruct v; cbn [call_toFixed is_number negb];
        (split; [intros H; inversion H; auto
                | intros [H ->]; (discriminate || reflexivity)]).
  - pose proof (isNaN_throws _ _ Hn) as ->.
    split; [intros H; injection H as <-; auto | intros [_ ->]; reflexivity].
Qed.

Lemma get_truthy (g : value) (k : string) :
  is_nullish g = false -> get g (lit k) = Ok (member g k).
Proof.
  unfold member. destruct g; cbn [is_nullish get]; intros H;
    (discriminate || reflexivity).
Qed.

Lemma truthy_not_nullish (g : value) : ToBoolean g = true -> is_nullish g = false.
Proof. destruct g; cbn; (discriminate || reflexivity). Qed.

Lemma member_object (fs : list (jsstring * value)) (k : string) :
  member (VObj fs) k = prop fs k.
Proof. reflexivity. Qed.

(** The rows of the detail view before and after [monthly_aport], when
    the fields they read are scalars. *)
Lemma detail_rows_scalar (g : value) :
  scalar_fields g detail_parsed = true ->
  exists time patrimony my_patrimony dividends rate,
    Detail.timeRemaining (member g "time_desired") = Ok time
    /\ Detail.currency_text (member g "patrimony") = Ok patrimony
    /\ Detail.currency_text (member g "my_patrimony") = Ok my_patrimony
    /\ Detail.ratio_child (member g "dividends") = Ok dividends
    /\ Detail.ratio_child (member g "rate") = Ok rate
    /\ check_child dividends = Ok tt
    /\ check_child rate = Ok tt.
Proof.
  unfold scalar_fields, detail_parsed. cbn [forallb]. intros H.
  apply andb_true_iff in H as [Ht H].
  apply andb_true_iff in H as [Hp H]. apply andb_true_iff in H as [Hm H].
  apply andb_true_iff in H as [Hd H]. apply andb_true_iff in H as [Hr _].
  destruct (timeRemaining_scalar _ Ht) as [time ?].
  destruct (currency_text_scalar _ Hp) as [patrimony ?].
  destruct (currency_text_scalar _ Hm) as [my_patrimony ?].
  destruct (ratio_child_scalar _ Hd) as (dividends & ? & ?).
  destruct (ratio_child_scalar _ Hr) as (rate & ? & ?).
  exists time, patrimony, my_patrimony, dividends, rate.
  repeat (split; [assumption|]). assumption.
Qed.

Lemma scalar_fields_name (g : value) (ks : list string) :
  scalar_fields g ("name"%string :: ks) = true ->
  check_child (member g "name") = Ok tt /\ scalar_fields g ks = true.
Proof.
  unfold scalar_fields. cbn [forallb]. intros H.
  apply andb_true_iff in H as [Hn H].
  split; [now apply scalar_check_child | exact H].
Qed.

(** The same for the definition-review view and [dividends]. *)
Lemma define_rows_scalar (g : value) :
  scalar_fields g define_parsed = true ->
  exists patrimony my_patrimony rate time,
    Define.parsed_text (member g "patrimony") = Ok patrimony
    /\ Define.parsed_text (member g "my_patrimony") = Ok my_patrimony
    /\ Define.rate_text (member g "rate") = Ok rate
    /\ Define.parsed_text (member g "time_desired") = Ok time.
Proof.
  unfold scalar_fields, define_parsed. cbn [forallb]. intros H.
  apply andb_true_iff in H as [Hp H].
  apply andb_true_iff in H as [Hm H]. apply andb_true_iff in H as [Hr H].
  apply andb_true_iff in H as [Ht _].
  destruct (parsed_text_scalar _ Hp) as [patrimony ?].
  destruct (parsed_text_scalar _ Hm) as [my_patrimony ?].
  destruct (rate_text_scalar _ Hr) as [rate ?].
  destruct (parsed_text_scalar _ Ht) as [time ?].
  exists patrimony, my_patrimony, rate, time.
  repeat (split; [assumption|]). assumption.
Qed.

(** When the other fields it reads are scalars (strings, numbers,
    booleans, null) or missing, the detail view throws exactly when it is
    past the loading and the error screens and [monthly_aport] is truthy
    and either does not convert to a number without an exception, or
    converts to a number and is not a Number (a numeric string, [true],
    an array such as [5]); the exception is a TypeError. *)
Theorem detail_render_throws (s : Detail.state) (e : exn) :
  scalar_fields (Detail.goalData s) detail_others = true ->
  Detail.render s = Throw e <->
  Detail.loading s = false
  /\ ToBoolean (Detail.goalData s) = true
  /\ aport_crashes (member (Detail.goalData s) "monthly_aport") = true
  /\ e = TypeError.
Proof.
  destruct s as [g l]. unfold Detail.render. cbn [Detail.loading Detail.goalData].
  intros Hs.
  destruct l; [split; [discriminate | intros [H _]; discriminate]|].
  destruct (ToBoolean g) eqn:Hg; cbn [negb];
    [|split; [discriminate | intros (_ & H & _); discriminate]].
  pose proof (truthy_not_nullish g Hg) as Hn.
  destruct (scalar_fields_name g _ Hs) as [Cn Hs'].
  destruct (detail_rows_scalar g Hs')
    as (time & patrimony & my_patrimony & dividends & rate
        & Ht & Hp & Hm & Hd & Hr & Cd & Cr).
  unfold Detail.field. rewrite !(get_truthy g _ Hn). cbn [bind_result].
  rewrite Ht. cbn [bind_result]. rewrite Hp. cbn [bind_result].
  rewrite Hm. cbn [bind_result].
  pose proof (aport_text_throws (member g "monthly_aport") e) as Ha.
  destruct (Detail.aport_text (member g "monthly_aport")) as [a|e0];
    cbn [bind_result].
  - rewrite Hd. cbn [bind_result]. rewrite Hr. cbn [bind_result].
    rewrite Cn, Cd, Cr. cbn [bind_result].
    split; [discriminate|]. intros (_ & _ & Hc & He).
    assert (Ok a = Throw e) by (apply Ha; auto). discriminate.
  - split.
    + intros H. injection H as ->. destruct Ha as [Ha _].
      destruct (Ha eq_refl) as [Hc He]. auto.
    + intros (_ & _ & Hc & He). destruct Ha as [_ Ha].
      specialize (Ha (conj Hc He)). injection Ha as ->. reflexivity.
Qed.

(** When the other fields it reads are scalars or missing, the
    definition-review view throws exactly when it is past the loading
    screen and either [goalData] is undefined or null, or [dividends]
    does not convert to a number without an exception, or converts to a
    number and is not a Number (a numeric or empty string, null, a
    boolean); the exception is a TypeError. *)
Theorem define_render_throws (s : Define.state) (e : exn) :
  scalar_fields (Define.goalData s) define_others = true ->
  Define.render s = Throw e <->
  Define.loading s = false
  /\ (is_nullish (Define.goalData s) = true
      \/ dividends_crashes (member (Define.goalData s) "dividends") = true)
  /\ e = TypeError.
Proof.
  destruct s as [g l sf]. unfold Define.render. cbn [Define.loading Define.goalData].
  intros Hs.
  destruct l; [split; [discriminate | intros [H _]; discriminate]|].
  destruct (is_nullish g) eqn:Hn.
  - destruct g; try discriminate; cbn;
      (split; [intros H; injection H as <-; auto | intros (_ & _ & ->); reflexivity]).
  - destruct (scalar_fields_name g _ Hs) as [Cn Hs'].
    destruct (define_rows_scalar g Hs')
      as (patrimony & my_patrimony & rate & time & Hp & Hm & Hr & Ht).
    unfold Define.field. rewrite !(get_truthy g _ Hn). cbn [bind_result].
    rewrite Hp. cbn [bind_result].
    pose proof (dividends_text_throws (member g "dividends") e) as Hd.
    destruct (Define.dividends_text (member g "dividends")) as [d|e0];
      cbn [bind_result].
    + rewrite Hm. cbn [bind_result]. rewrite Hr. cbn [bind_result].
      rewrite Ht. cbn [bind_result]. rewrite Cn. cbn [bind_result].
      split; [discriminate|]. intros (_ & [H|Hc] & He); [discriminate|].
      assert (Ok d = Throw e) by (apply Hd; auto). discriminate.
    + split.
      * intros H. injection H as ->. destruct Hd as [Hd _].
        destruct (Hd eq_refl) as [Hc He]. auto.
      * intros (_ & [H|Hc] & He); [discriminate|].
        destruct Hd as [_ Hd]. specialize (Hd (conj Hc He)).
        injection Hd as ->. reflexivity.
Qed.

(** ** Fields the detail view does not guard *)

(** There is no fallback for [time_desired] in the detail view: on a goal
    whose fields are scalars or missing and whose [monthly_aport] does
    not throw, whenever [time_desired] does not convert to a number (it
    is missing, or text such as "abc"), the view reads
    "Tempo Estimado: NaN anos". *)
Theorem detail_time_not_a_number
  (fs : list (jsstring * value)) (aport : jsstring) :
  scalar_fields (VObj fs) detail_others = true ->
  isNaN (prop fs "time_desired") = Ok true ->
  Detail.aport_text (prop fs "monthly_aport") = Ok aport ->
  exists rs,
    Detail.render (Detail.mkState (VObj fs) false) = Ok (Detail.Details rs)
    /\ Detail.highlight_time rs = lit "Tempo Estimado: NaN anos".
Proof.
  intros Hs Hn Ha.
  destruct (scalar_fields_name _ _ Hs) as [Cn Hs'].
  destruct (detail_rows_scalar _ Hs')
    as (time & patrimony & my_patrimony & dividends & rate
        & Ht & Hp & Hm & Hd & Hr & Cd & Cr).
  rewrite !member_object in *.
  assert (Htime : time = lit "NaN").
  { unfold Detail.timeRemaining, Number in Ht. unfold isNaN in Hn.
    destruct (ToNumber (prop fs "time_desired")) as [x|]; [|discriminate].
    cbn [bind_result] in *. injection Hn as Hx. injection Ht as <-.
    destruct x; try discriminate. vm_compute. reflexivity. }
  subst time.
  unfold Detail.render, Detail.field, get.
  cbn [Detail.loading Detail.goalData ToBoolean negb bind_result].
  fold (prop fs "time_desired") (prop fs "name") (prop fs "patrimony")
    (prop fs "my_patrimony") (prop fs "monthly_aport") (prop fs "dividends")
    (prop fs "rate") (prop fs "status").
  rewrite Ht. cbn [bind_result]. rewrite Hp. cbn [bind_result].
  rewrite Hm. cbn [bind_result]. rewrite Ha. cbn [bind_result].
  rewrite Hd. cbn [bind_result]. rewrite Hr. cbn [bind_result].
  rewrite Cn, Cd, Cr. cbn [bind_result].
  eexists. split; [reflexivity|]. reflexivity.
Qed.

(** ** Fields that are objects *)



(** No row of either view takes an object with a [toString] key of its
    own: each of them converts its field to a string or to a number
    first, and that conversion throws a TypeError. *)
Theorem own_toString_throws (fs : list (jsstring * value)) (v : value) :
  lookup (lit "toString") fs = Some v ->
  Detail.timeRemaining (VObj fs) = Throw TypeError
  /\ Detail.currency_text (VObj fs) = Throw TypeError
  /\ Detail.aport_text (VObj fs) = Throw TypeError
  /\ Detail.ratio_child (VObj fs) = Throw TypeError
  /\ Define.parsed_text (VObj fs) = Throw TypeError
  /\ Define.dividends_text (VObj fs) = Throw TypeError
  /\ Define.rate_text (VObj fs) = Throw TypeError.
Proof.
  intros H.
  unfold Detail.timeRemaining, Detail.currency_text, Detail.aport_text,
    Detail.ratio_child, Define.parsed_text, Define.dividends_text,
    Define.rate_text, Define.rate_expr, Number, isNaN, parseFloat.
  cbn [ToBoolean ToNumber ToString]. rewrite H. cbn [bind_result].
  repeat split.
Qed.

(** ** The summary budget, in general *)

Lemma cut_summary (summary : jsstring) :
  (250 < List.length summary)%nat ->
  List.length (firstn 250 summary ++ lit "...") = 253%nat
  /\ firstn 250 (firstn 250 summary ++ lit "...") = firstn 250 summary.
Proof.
  intros H. split.
  - rewrite length_app, length_firstn. rewrite Nat.min_l by lia. reflexivity.
  - rewrite firstn_app, firstn_firstn, Nat.min_id, length_firstn.
    rewrite Nat.min_l by lia. rewrite Nat.sub_diag.
    cbn [firstn]. apply app_nil_r.
Qed.

(** Whatever its length, a summary is cut only when it has more than 250
    code units and the toggle is off; what is shown then has 253 code
    units, so a summary of 251 or 252 code units grows; and the first 250
    code units are always those of the summary. *)
Theorem getLimitedSummary_length (showFullSummary : bool) (summary : jsstring) :
  List.length (Define.getLimitedSummary showFullSummary summary)
  = (if (250 <? List.length summary)%nat && negb showFullSummary
     then 253%nat else List.length summary)
  /\ firstn 250 (Define.getLimitedSummary showFullSummary summary)
     = firstn 250 summary.
Proof.
  destruct showFullSummary.
  - rewrite getLimitedSummary_full, andb_false_r. split; reflexivity.
  - rewrite andb_true_r. destruct (250 <? List.length summary)%nat eqn:E.
    + apply Nat.ltb_lt in E. rewrite getLimitedSummary_long by exact E.
      now apply cut_summary.
    + apply Nat.ltb_ge in E. rewrite getLimitedSummary_short by exact E.
      split; reflexivity.
Qed.

(** Cutting what was already cut changes nothing. *)
Theorem getLimitedSummary_idempotent (showFullSummary : bool) (summary : jsstring) :
  Define.getLimitedSummary showFullSummary
    (Define.getLimitedSummary showFullSummary summary)
  = Define.getLimitedSummary showFullSummary summary.
Proof.
  destruct showFullSummary; [now rewrite !getLimitedSummary_full|].
  destruct (Nat.le_gt_cases (List.length summary) 250) as [Hs|Hl].
  - rewrite (getLimitedSummary_short false summary Hs).
    now apply getLimitedSummary_short.
  - destruct (cut_summary summary Hl) as [Hlen Hpre].
    rewrite (getLimitedSummary_long summary Hl).
    rewrite getLimitedSummary_long by (rewrite Hlen; lia).
    now rewrite Hpre.
Qed.

(** ** Bullet lists *)

Lemma renderListItems_from_nth (items : list jsstring) (start i : nat) (item : jsstring) :
  nth_error items i = Some item ->
  nth_error (Detail.renderListItems_from start items) i
  = Some (Detail.mkItem (start + i) (lit "* " ++ item)).
Proof.
  revert start i. induction items as [|x items IH]; intros start i H.
  - destruct i; discriminate.
  - destruct i as [|i]; cbn [Detail.renderListItems_from nth_error] in *.
    + injection H as ->. now rewrite Nat.add_0_r.
    + rewrite (IH (S start) i H). now rewrite Nat.add_succ_r.
Qed.

Lemma renderListItems_from_length (items : list jsstring) (start : nat) :
  List.length (Detail.renderListItems_from start items) = List.length items.
Proof.
  revert start. induction items as [|x items IH]; intros start; cbn.
  - reflexivity.
  - now rewrite IH.
Qed.

(** [renderListItems] gives one line per entry, in the order of the
    entries: line [i] is "* " followed by entry [i], under the key [i]. *)
Theorem renderListItems_entries (items : list jsstring) :
  List.length (Detail.renderListItems items) = List.length items
  /\ forall i item,
       nth_error items i = Some item ->
       nth_error (Detail.renderListItems items) i
       = Some (Detail.mkItem i (lit "* " ++ item)).
Proof.
  split.
  - apply renderListItems_from_length.
  - intros i item H. apply (renderListItems_from_nth items 0 i item H).
Qed.

(** ** The handlers of the definition screen *)

Section DefineEffects.

Context {E : Type}.
Variable respond : request -> E -> result response * E.
Variables token engine_message : jsstring.
Variable initialGoalData : value.

#[local] Abbreviation W := (world Define.state E).
#[local] Abbreviation create_request payload :=
  (mkRequest POST ApiGoals (headers token) (Some (VObj payload))).
#[local] Abbreviation define_request :=
  (mkRequest POST ApiDefine (headers token) (Some initialGoalData)).

(** When the server accepts the goal, Create navigates to the plan
    screen with the identifier found under [goal_id.id]; it raises no
    alert and leaves the screen's state alone. *)
Theorem handleCreateGoal_success
  (w : W) (payload : list (jsstring * value)) (resp : response) (e' : E)
  (created goal_id goalId : value) :
  Define.dataToSend (Define.goalData (state w)) = Ok payload ->
  respond (create_request payload) (env w) = (Ok resp, e') ->
  ok resp = true ->
  json resp = Ok created ->
  get created (lit "goal_id") = Ok goal_id ->
  get goal_id (lit "id") = Ok goalId ->
  Define.handleCreateGoal respond token engine_message w =
  (Ok tt,
   mkWorld (state w) (pending w)
     (trace w
      ++ [EFetch (create_request payload);
          ENavigate (lit "GoalCreatePlan") (VObj [(lit "goalId", goalId)])]) e').
Proof.
  intros Hp Hr Hok Hj Hg Hi.
  unfold Define.handleCreateGoal. exec. rewrite Hp. exec. rewrite Hr. exec.
  rewrite Hok. exec. rewrite Hj. exec. rewrite Hg. exec. rewrite Hi. exec.
  rewrite <- !app_assoc. reflexivity.
Qed.

(** When the server rejects the goal with a JSON body, the alert shows the
    body's [message] if that is a non-empty string, and the English
    "Failed to create goal" if it is missing or falsy: the Portuguese
    fallback of the [catch] block is not reached.  Nothing is navigated
    to. *)
Theorem handleCreateGoal_rejected
  (w : W) (payload : list (jsstring * value)) (resp : response) (e' : E)
  (errorData message : value) (shown : jsstring) :
  Define.dataToSend (Define.goalData (state w)) = Ok payload ->
  respond (create_request payload) (env w) = (Ok resp, e') ->
  ok resp = false ->
  json resp = Ok errorData ->
  get errorData (lit "message") = Ok message ->
  (message = VStr shown /\ shown <> [])
  \/ (ToBoolean message = false /\ shown = lit "Failed to create goal") ->
  Define.handleCreateGoal respond token engine_message w =
  (Ok tt,
   mkWorld (state w) (pending w)
     (trace w
      ++ [EFetch (create_request payload);
          EConsoleError [LVal (VStr (lit "Error data:")); LVal errorData];
          EAlert (lit "Erro") shown;
          EConsoleError [LVal (VStr (lit "Fetch error:")); LExn (Error shown)]]) e').
Proof.
  intros Hp Hr Hok Hj Hm Hcase.
  assert (Ht : ToString (Define.or_else message (VStr (lit "Failed to create goal")))
               = Ok shown /\ shown <> []).
  { destruct Hcase as [[-> Hne] | [Hf ->]].
    - destruct shown as [|c t]; [contradiction|]. split; [reflexivity | assumption].
    - unfold Define.or_else. rewrite Hf.
      split; [reflexivity | vm_compute; discriminate]. }
  destruct Ht as [Ht Hne].
  unfold Define.handleCreateGoal. exec. rewrite Hp. exec. rewrite Hr. exec.
  rewrite Hok. exec. rewrite Hj. exec. rewrite Hm. exec. rewrite Ht. exec.
  rewrite <- !app_assoc. cbn [app Define.message_of].
  destruct shown as [|c t]; [contradiction|]. reflexivity.
Qed.

(** Without a draft ([route.params] undefined or null) Create sends
    nothing: reading [monthly_aport] raises, and the handler ends in the
    alert. *)
Theorem handleCreateGoal_without_draft (w : W) :
  is_nullish (Define.goalData (state w)) = true ->
  exists shown,
    Define.handleCreateGoal respond token engine_message w =
    (Ok tt,
     mkWorld (state w) (pending w)
       (trace w
        ++ [EAlert (lit "Erro") shown;
            EConsoleError [LVal (VStr (lit "Fetch error:")); LExn TypeError]])
       (env w)).
Proof.
  intros Hn. unfold Define.handleCreateGoal, Define.dataToSend. exec.
  destruct (Define.goalData (state w)); try discriminate;
    cbn [get]; exec; eexists; rewrite <- !app_assoc; reflexivity.
Qed.

(** Every run of Create returns normally, leaves the screen's state
    alone, sends at most one request, and ends in exactly one of two
    ways: one navigation, or one error alert. *)
Theorem handleCreateGoal_one_outcome (w : W) :
  exists evs w',
    Define.handleCreateGoal respond token engine_message w = (Ok tt, w')
    /\ state w' = state w
    /\ trace w' = trace w ++ evs
    /\ (List.length (filter is_navigation evs)
        + List.length (filter is_error_alert evs) = 1)%nat
    /\ (List.length (filter is_fetch evs) <= 1)%nat.
Proof.
  unfold Define.handleCreateGoal. exec.
  destruct (Define.dataToSend _) as [payload|e0]; exec.
  - destruct (respond _ _) as [[resp|e0] e']; exec.
    + destruct (ok resp); exec.
      * destruct (json resp) as [created|e0]; exec.
        -- destruct (get created _) as [gid|e0]; exec.
           ++ destruct (get gid _) as [i|e0]; exec;
                eexists; eexists; (split; [reflexivity|]); cbn [state trace];
                rewrite <- ?app_assoc;
                (split; [reflexivity|]); (split; [reflexivity|]);
                split; [reflexivity | cbn; lia | reflexivity | cbn; lia].
           ++ eexists; eexists; (split; [reflexivity|]); cbn [state trace];
                rewrite <- ?app_assoc;
                (split; [reflexivity|]); (split; [reflexivity|]);
                split; [reflexivity | cbn; lia].
        -- eexists; eexists; (split; [reflexivity|]); cbn [state trace];
             rewrite <- ?app_assoc;
             (split; [reflexivity|]); (split; [reflexivity|]);
             split; [reflexivity | cbn; lia].
      * destruct (json resp) as [errorData|e0]; exec.
        -- destruct (get errorData _) as [m|e0]; exec;
             [destruct (ToString _) as [text|e0]; exec|];
             eexists; eexists; (split; [reflexivity|]); cbn [state trace];
             rewrite <- ?app_assoc;
             (split; [reflexivity|]); (split; [reflexivity|]);
             split; (reflexivity || (cbn; lia)).
        -- eexists; eexists; (split; [reflexivity|]); cbn [state trace];
             rewrite <- ?app_assoc;
             (split; [reflexivity|]); (split; [reflexivity|]);
             split; [reflexivity | cbn; lia].
    + eexists; eexists; (split; [reflexivity|]); cbn [state trace];
        rewrite <- ?app_assoc;
        (split; [reflexivity|]); (split; [reflexivity|]);
        split; [reflexivity | cbn; lia].
  - eexists; eexists; (split; [reflexivity|]); cbn [state trace];
      rewrite <- ?app_assoc;
      (split; [reflexivity|]); (split; [reflexivity|]);
      split; [reflexivity | cbn; lia].
Qed.

(** When the definition request succeeds with a JSON body, that body
    replaces the draft on the screen and the loading flag is cleared. *)
Theorem define_fetch_success
  (w : W) (resp : response) (e' : E) (data : value) :
  respond define_request (env w) = (Ok resp, e') ->
  ok resp = true ->
  json resp = Ok data ->
  Define.fetchGoalData respond token initialGoalData w =
  (Ok tt,
   mkWorld (Define.mkState data false (Define.showFullSummary (state w)))
     (pending w) (trace w ++ [EFetch define_request]) e').
Proof.
  intros Hr Hok Hj.
  unfold Define.fetchGoalData, Define.setGoalData, Define.setLoading. exec.
  rewrite Hr. exec. rewrite Hok. exec. rewrite Hj. exec. reflexivity.
Qed.

(** When it fails in any way, the screen keeps the draft and stops
    loading, so the draft is what gets rendered; one alert is raised and
    the exception is logged, the response body is never read. *)
Theorem define_fetch_failure (w : W) :
  define_failed (fst (respond define_request (env w))) = true ->
  exists err,
    Define.fetchGoalData respond token initialGoalData w =
    (Ok tt,
     mkWorld
       (Define.mkState (Define.goalData (state w)) false
          (Define.showFullSummary (state w)))
       (pending w)
       (trace w
        ++ [EFetch define_request;
            EAlert (lit "Erro") (lit "Falha ao definir a meta.");
            EConsoleError [LExn err]])
       (snd (respond define_request (env w)))).
Proof.
  unfold Define.fetchGoalData, Define.setGoalData, Define.setLoading, define_failed.
  exec. destruct (respond _ _) as [[resp|e0] e']; cbn [fst snd]; exec.
  - destruct (ok resp); cbn [negb orb]; exec.
    + destruct (json resp) as [data|e0]; [discriminate|]. intros _.
      exec. eexists. rewrite <- !app_assoc. reflexivity.
    + intros _. eexists. rewrite <- !app_assoc. reflexivity.
  - intros _. eexists. rewrite <- !app_assoc. reflexivity.
Qed.

End DefineEffects.

(** ** The rows guarded by [parseFloat] *)

Lemma iter_pos_invariant {A : Type} (P : A -> Prop) (f : A -> A) :
  (forall x, P x -> P (f x)) ->
  forall p x, P x -> P (iter_pos f p x).
Proof.
  intros Hf. induction p as [p IH|p IH|]; intros x Hx; cbn [iter_pos]; auto.
Qed.

Lemma shr_1_nonneg (mrs : shr_record) : 0 <= shr_m mrs -> 0 <= shr_m (shr_1 mrs).
Proof.
  destruct mrs as [m r s]. cbn [shr_m]. intros H.
  destruct m as [|p|p]; [reflexivity | | lia].
  destruct p; cbn; lia.
Qed.

Lemma shr_fexp_nonneg (m e : Z) (l : location) :
  0 <= m -> 0 <= shr_m (fst (shr_fexp prec emax m e l)).
Proof.
  intros H. unfold shr_fexp, shr.
  assert (H0 : 0 <= shr_m (shr_record_of_loc m l))
    by (destruct l as [|[]]; exact H).
  destruct (fexp prec emax (Zdigits2 m + e) - e) as [|p|p]; cbn [fst]; auto.
  apply (iter_pos_invariant (fun x => 0 <= shr_m x)); auto using shr_1_nonneg.
Qed.

Lemma round_nearest_even_nonneg (m : Z) (l : location) :
  0 <= m -> 0 <= round_nearest_even m l.
Proof.
  intros H. destruct l as [|[]]; cbn; try lia. destruct (Z.even m); lia.
Qed.

Lemma binary_round_aux_not_nan (s : bool) (m e : Z) (l : location) :
  0 <= m -> is_nan (binary_round_aux prec emax s m e l) = false.
Proof.
  intros H. unfold binary_round_aux.
  pose proof (shr_fexp_nonneg m e l H) as H1.
  destruct (shr_fexp prec emax m e l) as [mrs' e']. cbn [fst] in H1.
  pose proof (shr_fexp_nonneg _ e' loc_Exact
                (round_nearest_even_nonneg _ (loc_of_shr_record mrs') H1)) as H2.
  destruct (shr_fexp prec emax _ e' loc_Exact) as [mrs'' e'']. cbn [fst] in H2.
  destruct (shr_m mrs'') as [|p|p]; [reflexivity | | lia].
  destruct (e'' <=? emax - prec); reflexivity.
Qed.

(** Rounding a non-negative fraction never gives NaN. *)
Lemma ratio_not_nan (neg : bool) (n d : Z) :
  0 <= n -> 0 < d -> is_nan (ratio neg n d) = false.
Proof.
  intros Hn Hd. unfold ratio. destruct n as [|p|p]; [reflexivity | | lia].
  unfold SFdiv_core_binary.
  set (m' := match _ - _ - _ with Z0 => _ | Zpos _ => _ | Zneg _ => _ end).
  assert (Hm : 0 <= m').
  { unfold m'. destruct (_ - _ - _); try lia. apply Z.shiftl_nonneg. lia. }
  assert (Hq : 0 <= fst (Z.div_eucl m' d)) by (apply (Z.div_pos m' d); lia).
  destruct (Z.div_eucl m' d) as [q r]. cbn [fst] in Hq.
  now apply binary_round_aux_not_nan.
Qed.

Lemma span_digits_digits (s : jsstring) :
  Forall (fun c => is_digit c = true) (fst (span_digits s)).
Proof.
  induction s as [|c s IH]; cbn [span_digits]; [constructor|].
  destruct (is_digit c) eqn:Hc; [|constructor].
  destruct (span_digits s) as [d r]. cbn [fst] in *. now constructor.
Qed.

Lemma digits_value_nonneg (ds : jsstring) :
  Forall (fun c => is_digit c = true) ds -> 0 <= digits_value ds.
Proof.
  unfold digits_value. intros H.
  assert (G : forall a, 0 <= a ->
              0 <= fold_left (fun a c => a * 10 + digit_val c) ds a).
  { induction H as [|c ds Hc _ IH]; intros a Ha; cbn [fold_left]; [exact Ha|].
    apply IH. unfold is_digit in Hc. apply andb_true_iff in Hc as [Hc _].
    apply N.leb_le in Hc. unfold digit_val. lia. }
  apply G. lia.
Qed.

Lemma decimal_not_nan (neg : bool) (m e : Z) :
  0 <= m -> is_nan (literal_value (LDecimal neg m e)) = false.
Proof.
  intros H. cbn [literal_value]. destruct (0 <=? e) eqn:He.
  - apply ratio_not_nan; [|lia]. apply Z.leb_le in He.
    apply Z.mul_nonneg_nonneg; [exact H|]. apply Z.pow_nonneg. lia.
  - apply ratio_not_nan; [exact H|]. apply Z.leb_gt in He.
    apply Z.pow_pos_nonneg; lia.
Qed.

Lemma parse_unsigned_not_nan (neg : bool) (s r : jsstring) (l : dec_literal) :
  parse_unsigned neg s = Some (l, r) -> is_nan (literal_value l) = false.
Proof.
  unfold parse_unsigned.
  destruct (strip_prefix (lit "Infinity") s); [now intros [= <- _]|].
  pose proof (span_digits_digits s) as Hip.
  destruct (span_digits s) as [ip r1]. cbn [fst] in Hip.
  assert (Hfp : forall fp r2,
            (match ip ++ fp with
             | [] => None
             | ds =>
                 let (ex, r3) := parse_exponent r2 in
                 Some (LDecimal neg (digits_value ds) (ex - Z.of_nat (List.length fp)), r3)
             end) = Some (l, r) ->
            Forall (fun c => is_digit c = true) fp ->
            is_nan (literal_value l) = false).
  { intros fp r2 H Hf.
    assert (Hds : Forall (fun c => is_digit c = true) (ip ++ fp))
      by (apply Forall_app; split; assumption).
    destruct (ip ++ fp) as [|c ds] eqn:E; [discriminate|].
    destruct (parse_exponent r2) as [ex r3]. injection H as <- _.
    apply decimal_not_nan. now apply digits_value_nonneg. }
  destruct r1 as [|c r1]; [intros H; apply (Hfp [] [] H); constructor|].
  destruct (c =? 46)%N;
    [|intros H; apply (Hfp [] (c :: r1) H); constructor].
  pose proof (span_digits_digits r1) as Hf.
  destruct (span_digits r1) as [fp r']. cbn [fst] in Hf.
  destruct ip as [|i ip]; [destruct fp as [|f fp]|].
  - intros H. discriminate H.
  - intros H. apply (Hfp (f :: fp) _ H). exact Hf.
  - intros H. apply (Hfp fp _ H). exact Hf.
Qed.

(** A literal read by [parseFloat] is never NaN. *)
Lemma parse_prefix_not_nan (s r : jsstring) (l : dec_literal) :
  parse_prefix s = Some (l, r) -> is_nan (literal_value l) = false.
Proof.
  unfold parse_prefix. destruct (parse_sign s) as [neg t].
  apply parse_unsigned_not_nan.
Qed.

(** For a field that is a string, the three rows that go through
    [parseFloat] look only at the numeric literal in front of it, after
    white space: with one, whatever follows is ignored, the amounts are
    that literal's value to two decimals and the detail view's dividends
    and rate show the string as it is; without one, they show their
    fallbacks. *)
Theorem parseFloat_rows (s : jsstring) :
  match parse_prefix (trim_start s) with
  | Some (l, _) =>
      Detail.currency_text (VStr s) = Ok (lit "R$" ++ toFixed 2 (literal_value l))
      /\ Detail.ratio_child (VStr s) = Ok (VStr s)
      /\ Define.parsed_text (VStr s) = Ok (toFixed 2 (literal_value l))
  | None =>
      Detail.currency_text (VStr s) = Ok (lit "R$0.00")
      /\ Detail.ratio_child (VStr s) = Ok (VStr (lit "N/A"))
      /\ Define.parsed_text (VStr s) = Ok (lit "N/A")
  end.
Proof.
  unfold Detail.currency_text, Detail.ratio_child, Define.parsed_text,
    isNaN, parseFloat, parseFloat_string. cbn [ToNumber ToString bind_result].
  destruct (parse_prefix (trim_start s)) as [[l r]|] eqn:Hp.
  - rewrite (parse_prefix_not_nan _ _ _ Hp). cbn [negb].
    assert (Hs : ToBoolean (VStr s) = true).
    { destruct s as [|c s]; [discriminate Hp | reflexivity]. }
    rewrite Hs. repeat split.
  - cbn [is_nan NaN negb]. destruct (ToBoolean (VStr s)); repeat split.
Qed.

(** When the field converts to a string, and unless the amount parses
    to an infinity or to 10^21 and more, the rows of [patrimony] and
    [my_patrimony] read "R$", an optional minus, digits, a point and two
    digits. *)
Theorem currency_text_shape (v : value) (x : number) :
  parseFloat v = Ok x ->
  is_nan x || fixed_range x = true ->
  exists t, Detail.currency_text v = Ok (lit "R$" ++ t) /\ two_decimals t.
Proof.
  intros Hx H. unfold Detail.currency_text. rewrite Hx. cbn [bind_result].
  rewrite isNaN_number. cbn [bind_result].
  destruct (ToBoolean v && negb (is_nan x)) eqn:G.
  - apply andb_true_iff in G as [-> G]. rewrite G.
    exists (toFixed 2 x). split; [reflexivity|].
    apply negb_true_iff in G.
    rewrite G in H. cbn [orb] in H.
    destruct x as [z| | |sg m e]; try discriminate.
    + destruct (fixed_digits_shape 0 2) as (int & frac & Heq & Hi & Hf & Hd); [lia|].
      exists [], int, frac. cbn [toFixed app]. auto.
    + cbn [fixed_range] in H. apply negb_true_iff in H.
      destruct (toFixed_two_decimals sg m e H) as (int & frac & Heq & Hi & Hf & Hd).
      exists (if sg then lit "-" else []), int, frac.
      split; [exact Heq|]. split; [destruct sg; auto|]. auto.
  - exists (lit "0.00"). split.
    + destruct (ToBoolean v); [|reflexivity].
      cbn [andb] in G. rewrite G. reflexivity.
    + exists [], (lit "0"), (lit "00").
      split; [reflexivity|]. split; [auto|]. split; [vm_compute; lia|].
      split; [reflexivity|]. repeat constructor.
Qed.

(** ** The properties above on concrete runs *)

Lemma mutators_when_fetch_raises_witness :
  (forall r, fst (offline r (env casa_detail))
             = Throw (NetworkError (lit "Network request failed")))
  /\ exists w',
      Detail.deleteGoal offline (lit "g1") some_token casa_detail = (Ok tt, w')
      /\ trace w' =
         [EFetch (Detail.api some_token DELETE (ApiGoal (lit "g1")));
          EAlert (lit "Erro") (lit "Falha ao deletar a meta.");
          EConsoleError [LExn (NetworkError (lit "Network request failed"))]].
Proof.
  assert (H : forall r, fst (offline r (env casa_detail))
                        = Throw (NetworkError (lit "Network request failed")))
    by (intros r; reflexivity).
  split; [exact H|].
  destruct (mutators_when_fetch_raises offline (lit "g1") some_token casa_detail _ H)
    as ((w' & Hrun & Htr & _) & _).
  exists w'. split; [exact Hrun | exact Htr].
Defined.

Lemma toggles_rejected_witness :
  Server.serve (Detail.api some_token POST (ApiFinalize (lit "g1")))
    (env (detail_world (Detail.initial (VObj casa)) []))
  = (Ok Server.not_found, [])
  /\ Server.serve (Detail.api some_token POST (ApiReopen (lit "g1")))
       (env (detail_world (Detail.initial (VObj casa)) []))
     = (Ok Server.not_found, [])
  /\ ok Server.not_found = false
  /\ text Server.not_found = Ok (lit "Goal not found")
  /\ exists w',
      Detail.finalizeGoal Server.serve (lit "g1") some_token
        (detail_world (Detail.initial (VObj casa)) []) = (Ok tt, w')
      /\ pending w' = [].
Proof.
  assert (H1 : Server.serve (Detail.api some_token POST (ApiFinalize (lit "g1")))
                 (env (detail_world (Detail.initial (VObj casa)) []))
               = (Ok Server.not_found, [])) by reflexivity.
  assert (H2 : Server.serve (Detail.api some_token POST (ApiReopen (lit "g1")))
                 (env (detail_world (Detail.initial (VObj casa)) []))
               = (Ok Server.not_found, [])) by reflexivity.
  assert (H3 : ok Server.not_found = false) by reflexivity.
  assert (H4 : text Server.not_found = Ok (lit "Goal not found")) by reflexivity.
  split; [exact H1|]. split; [exact H2|]. split; [exact H3|]. split; [exact H4|].
  destruct (toggles_rejected Server.serve (lit "g1") some_token
              (detail_world (Detail.initial (VObj casa)) [])
              Server.not_found [] [] (lit "Goal not found") H1 H2 H3 H4)
    as ((w' & Hrun & _ & Hp) & _).
  exists w'. split; [exact Hrun | exact Hp].
Defined.

Lemma fetchGoalData_success_witness :
  Server.serve (Detail.api some_token GET (ApiGoal (lit "g1")))
    (env (detail_world (Detail.initial VUndefined) casa_store))
  = (Ok (Server.success (Ok (VArr [VObj casa]))), casa_store)
  /\ Detail.fetchGoalData Server.serve (lit "g1") some_token
       (detail_world (Detail.initial VUndefined) casa_store)
     = (Ok tt,
        mkWorld (Detail.mkState (VObj casa) false) []
          [EFetch (Detail.api some_token GET (ApiGoal (lit "g1")))] casa_store).
Proof.
  assert (H : Server.serve (Detail.api some_token GET (ApiGoal (lit "g1")))
                (env (detail_world (Detail.initial VUndefined) casa_store))
              = (Ok (Server.success (Ok (VArr [VObj casa]))), casa_store))
    by reflexivity.
  split; [exact H|].
  exact (fetchGoalData_success Server.serve (lit "g1") some_token
           (detail_world (Detail.initial VUndefined) casa_store)
           _ _ (VArr [VObj casa]) (VObj casa) H eq_refl eq_refl eq_refl).
Defined.

Lemma fetchGoalData_bad_body_witness :
  garbled (Detail.api some_token GET (ApiGoal (lit "g1"))) (env casa_detail)
  = (Ok (Server.success Server.no_body), tt)
  /\ exists w',
      Detail.fetchGoalData garbled (lit "g1") some_token casa_detail = (Ok tt, w')
      /\ Detail.goalData (state w') = VObj casa.
Proof.
  assert (H : garbled (Detail.api some_token GET (ApiGoal (lit "g1"))) (env casa_detail)
              = (Ok (Server.success Server.no_body), tt)) by reflexivity.
  split; [exact H|].
  eexists. split.
  - exact (fetchGoalData_bad_body garbled (lit "g1") some_token casa_detail
             _ _ _ H eq_refl (or_introl eq_refl)).
  - reflexivity.
Defined.

Lemma fetchGoalData_twice_witness :
  Server.serve (Detail.api some_token GET (ApiGoal (lit "g1")))
    (env (detail_world (Detail.initial VUndefined) casa_store))
  = (Ok (Server.success (Ok (VArr [VObj casa]))), casa_store)
  /\ exists w1 w2,
      Detail.fetchGoalData Server.serve (lit "g1") some_token
        (detail_world (Detail.initial VUndefined) casa_store) = (Ok tt, w1)
      /\ Detail.fetchGoalData Server.serve (lit "g1") some_token w1 = (Ok tt, w2)
      /\ state w2 = state w1.
Proof.
  assert (H : Server.serve (Detail.api some_token GET (ApiGoal (lit "g1")))
                (env (detail_world (Detail.initial VUndefined) casa_store))
              = (Ok (Server.success (Ok (VArr [VObj casa]))), casa_store))
    by reflexivity.
  split; [exact H|].
  exact (fetchGoalData_twice Server.serve (lit "g1") some_token
           (detail_world (Detail.initial VUndefined) casa_store) _ _ _ H H).
Defined.

Lemma mount_with_data_witness :
  ToBoolean (VObj casa) = true
  /\ Detail.initial (VObj casa) = Detail.mkState (VObj casa) false
  /\ Detail.on_focus (lit "g1") some_token (VObj casa) casa_detail
     = (Ok tt, casa_detail).
Proof.
  split; [reflexivity|].
  exact (mount_with_data (lit "g1") some_token casa_detail (VObj casa) eq_refl).
Defined.

Lemma mount_without_data_witness :
  ToBoolean VUndefined = false
  /\ bind (Detail.on_focus (lit "g1") some_token VUndefined)
          (fun _ => Detail.fetchGoalData_resume Server.serve)
          (detail_world (Detail.initial VUndefined) casa_store)
     = (Ok tt,
        mkWorld (Detail.mkState (VObj casa) false) []
          [EFetch (Detail.api some_token GET (ApiGoal (lit "g1")))] casa_store).
Proof.
  split; [reflexivity|].
  exact (proj2 (mount_without_data Server.serve (lit "g1") some_token
                  (detail_world (Detail.initial VUndefined) casa_store)
                  VUndefined (Server.success (Ok (VArr [VObj casa]))) casa_store
                  (VObj casa) [] eq_refl eq_refl eq_refl eq_refl eq_refl)).
Defined.


Lemma detail_render_throws_witness :
  (scalar_fields
     (VObj (assign (lit "monthly_aport") (VStr (lit "100")) casa)) detail_others = true
   /\ aport_crashes (VStr (lit "100")) = true
   /\ Detail.render
        (Detail.mkState
           (VObj (assign (lit "monthly_aport") (VStr (lit "100")) casa)) false)
      = Throw TypeError)
  /\ (scalar_fields
        (VObj (assign (lit "monthly_aport") (VObj own_toString) casa)) detail_others
      = true
      /\ aport_crashes (VObj own_toString) = true
      /\ Detail.render
           (Detail.mkState
              (VObj (assign (lit "monthly_aport") (VObj own_toString) casa)) false)
         = Throw TypeError).
Proof.
  assert (H1 : scalar_fields
                 (Detail.goalData
                    (Detail.mkState
                       (VObj (assign (lit "monthly_aport") (VStr (lit "100")) casa))
                       false))
                 detail_others = true) by (vm_compute; reflexivity).
  assert (H2 : scalar_fields
                 (Detail.goalData
                    (Detail.mkState
                       (VObj (assign (lit "monthly_aport") (VObj own_toString) casa))
                       false))
                 detail_others = true) by (vm_compute; reflexivity).
  split.
  - split; [exact H1|]. split; [vm_compute; reflexivity|].
    apply (proj2 (detail_render_throws
                    (Detail.mkState
                       (VObj (assign (lit "monthly_aport") (VStr (lit "100")) casa))
                       false) TypeError H1)).
    split; [reflexivity|]. split; [reflexivity|].
    split; [vm_compute; reflexivity | reflexivity].
  - split; [exact H2|]. split; [vm_compute; reflexivity|].
    apply (proj2 (detail_render_throws
                    (Detail.mkState
                       (VObj (assign (lit "monthly_aport") (VObj own_toString) casa))
                       false) TypeError H2)).
    split; [reflexivity|]. split; [reflexivity|].
    split; [vm_compute; reflexivity | reflexivity].
Defined.

Lemma define_render_throws_witness :
  (scalar_fields (VObj casa) define_others = true
   /\ dividends_crashes (member (VObj casa) "dividends") = true
   /\ Define.render (Define.mkState (VObj casa) false false) = Throw TypeError)
  /\ (scalar_fields VUndefined define_others = true
      /\ is_nullish VUndefined = true
      /\ Define.render (Define.mkState VUndefined false false) = Throw TypeError).
Proof.
  assert (H1 : scalar_fields
                 (Define.goalData (Define.mkState (VObj casa) false false))
                 define_others = true) by (vm_compute; reflexivity).
  assert (H2 : dividends_crashes (member (VObj casa) "dividends") = true)
    by (vm_compute; reflexivity).
  assert (H3 : scalar_fields
                 (Define.goalData (Define.mkState VUndefined false false))
                 define_others = true) by (vm_compute; reflexivity).
  split.
  - split; [exact H1|]. split; [exact H2|].
    apply (proj2 (define_render_throws
                    (Define.mkState (VObj casa) false false) TypeError H1)).
    split; [reflexivity|]. split; [right; exact H2 | reflexivity].
  - split; [exact H3|]. split; [reflexivity|].
    apply (proj2 (define_render_throws
                    (Define.mkState VUndefined false false) TypeError H3)).
    split; [reflexivity|]. split; [left; reflexivity | reflexivity].
Defined.

Lemma detail_time_not_a_number_witness :
  scalar_fields (VObj zero_draft) detail_others = true
  /\ isNaN (prop zero_draft "time_desired") = Ok true
  /\ Detail.aport_text (prop zero_draft "monthly_aport") = Ok (lit "R$0.00")
  /\ exists rs,
      Detail.render (Detail.mkState (VObj zero_draft) false) = Ok (Detail.Details rs)
      /\ Detail.highlight_time rs = lit "Tempo Estimado: NaN anos".
Proof.
  assert (H0 : scalar_fields (VObj zero_draft) detail_others = true)
    by (vm_compute; reflexivity).
  assert (H1 : isNaN (prop zero_draft "time_desired") = Ok true) by reflexivity.
  assert (H2 : Detail.aport_text (prop zero_draft "monthly_aport") = Ok (lit "R$0.00"))
    by reflexivity.
  exact (conj H0 (conj H1 (conj H2 (detail_time_not_a_number zero_draft _ H0 H1 H2)))).
Defined.

Lemma renderListItems_entries_witness :
  nth_error [lit "Poupar"; lit "Investir"] 1 = Some (lit "Investir")
  /\ nth_error (Detail.renderListItems [lit "Poupar"; lit "Investir"]) 1
     = Some (Detail.mkItem 1 (lit "* " ++ lit "Investir")).
Proof.
  split; [reflexivity|].
  exact (proj2 (renderListItems_entries [lit "Poupar"; lit "Investir"])
           1%nat (lit "Investir") eq_refl).
Defined.

Lemma handleCreateGoal_success_witness :
  Define.dataToSend (Define.goalData (state casa_draft)) = Ok casa_payload
  /\ Define.handleCreateGoal creating some_token some_wording casa_draft
     = (Ok tt,
        mkWorld (state casa_draft) []
          [EFetch (mkRequest POST ApiGoals (headers some_token)
                     (Some (VObj casa_payload)));
           ENavigate (lit "GoalCreatePlan")
             (VObj [(lit "goalId", VStr (lit "g2"))])] tt).
Proof.
  assert (H : Define.dataToSend (Define.goalData (state casa_draft)) = Ok casa_payload)
    by reflexivity.
  split; [exact H|].
  exact (handleCreateGoal_success creating some_token some_wording casa_draft
           casa_payload _ tt _ _ _ H eq_refl eq_refl eq_refl eq_refl eq_refl).
Defined.

Lemma handleCreateGoal_rejected_witness :
  Define.dataToSend (Define.goalData (state casa_draft)) = Ok casa_payload
  /\ lit "Nome em uso" <> []
  /\ exists w',
      Define.handleCreateGoal (rejecting (VStr (lit "Nome em uso")))
        some_token some_wording casa_draft = (Ok tt, w')
      /\ In (EAlert (lit "Erro") (lit "Nome em uso")) (trace w').
Proof.
  assert (H : Define.dataToSend (Define.goalData (state casa_draft)) = Ok casa_payload)
    by reflexivity.
  assert (Hne : lit "Nome em uso" <> []) by discriminate.
  split; [exact H|]. split; [exact Hne|].
  eexists. split.
  - exact (handleCreateGoal_rejected (rejecting (VStr (lit "Nome em uso")))
             some_token some_wording casa_draft casa_payload _ tt _ _
             (lit "Nome em uso") H eq_refl eq_refl eq_refl eq_refl
             (or_introl (conj eq_refl Hne))).
  - cbn [trace app]. right. right. left. reflexivity.
Defined.

Lemma handleCreateGoal_without_draft_witness :
  is_nullish (Define.goalData (state (define_world VUndefined []))) = true
  /\ exists shown,
      Define.handleCreateGoal Server.serve some_token some_wording
        (define_world VUndefined [])
      = (Ok tt,
         mkWorld (Define.mkState VUndefined false false) []
           [EAlert (lit "Erro") shown;
            EConsoleError [LVal (VStr (lit "Fetch error:")); LExn TypeError]] []).
Proof.
  split; [reflexivity|].
  exact (handleCreateGoal_without_draft Server.serve some_token some_wording
           (define_world VUndefined []) eq_refl).
Defined.

Lemma define_fetch_success_witness :
  creating (mkRequest POST ApiDefine (headers some_token) (Some (VObj casa)))
    (env casa_draft)
  = (Ok (Server.success
           (Ok (VObj [(lit "goal_id", VObj [(lit "id", VStr (lit "g2"))])]))), tt)
  /\ exists w',
      Define.fetchGoalData creating some_token (VObj casa) casa_draft = (Ok tt, w')
      /\ Define.loading (state w') = false.
Proof.
  split; [reflexivity|].
  eexists. split.
  - exact (define_fetch_success creating some_token (VObj casa) casa_draft
             _ tt _ eq_refl eq_refl eq_refl).
  - reflexivity.
Defined.

Lemma define_fetch_failure_witness :
  define_failed
    (fst (offline (mkRequest POST ApiDefine (headers some_token) (Some (VObj casa)))
            (env casa_draft))) = true
  /\ exists err w',
      Define.fetchGoalData offline some_token (VObj casa) casa_draft = (Ok tt, w')
      /\ Define.goalData (state w') = VObj casa
      /\ In (EConsoleError [LExn err]) (trace w').
Proof.
  assert (H : define_failed
                (fst (offline (mkRequest POST ApiDefine (headers some_token)
                                 (Some (VObj casa))) (env casa_draft))) = true)
    by reflexivity.
  split; [exact H|].
  destruct (define_fetch_failure offline some_token (VObj casa) casa_draft H)
    as [err Hrun].
  exists err. eexists. split; [exact Hrun|]. split; [reflexivity|].
  cbn [trace app]. right. right. left. reflexivity.
Defined.

Lemma currency_text_shape_witness :
  parseFloat (VStr (lit "1234.5")) = Ok (parseFloat_string (lit "1234.5"))
  /\ is_nan (parseFloat_string (lit "1234.5"))
     || fixed_range (parseFloat_string (lit "1234.5")) = true
  /\ exists t,
      Detail.currency_text (VStr (lit "1234.5")) = Ok (lit "R$" ++ t)
      /\ two_decimals t.
Proof.
  assert (H0 : parseFloat (VStr (lit "1234.5"))
               = Ok (parseFloat_string (lit "1234.5"))) by reflexivity.
  assert (H : is_nan (parseFloat_string (lit "1234.5"))
              || fixed_range (parseFloat_string (lit "1234.5")) = true)
    by (vm_compute; reflexivity).
  exact (conj H0 (conj H (currency_text_shape (VStr (lit "1234.5")) _ H0 H))).
Defined.



Lemma own_toString_throws_witness :
  lookup (lit "toString") own_toString = Some (num "1")
  /\ Detail.currency_text (VObj own_toString) = Throw TypeError
  /\ Define.rate_text (VObj own_toString) = Throw TypeError.
Proof.
  assert (H : lookup (lit "toString") own_toString = Some (num "1")) by reflexivity.
  split; [exact H|].
  destruct (own_toString_throws own_toString _ H) as (_ & Hc & _ & _ & _ & _ & Hr).
  split; [exact Hc | exact Hr].
Defined.
